(** * LinkedIn MCP server: dispatcher and response normalizers

    A shallow embedding of [src/server.py] (class [LinkedInMCPServer]).

    - Python values that travel through the server (tool arguments, upstream
      JSON documents, normalized records) are the type [value].
    - A Python [str] is a [string]; every [ascii] stands for one code point,
      so the development covers strings whose code points are below 256.
    - A Python [dict] is an association list in insertion order; lookups take
      the first entry of a key.
    - Code that may raise returns [result]; the [async] methods, which read
      and write [self.session] and talk to the upstream service, live in a
      state-and-exception monad over [world]. *)

From Stdlib Require Import String Ascii List ZArith Bool Lia DecimalString.
Import ListNotations.
Local Open Scope string_scope.
Local Open Scope Z_scope.

(** ** The Python runtime, as far as the server uses it *)

Module Py.

#[warnings="-register-all"]
Inductive value : Type :=
| VNone
| VBool (b : bool)
| VInt (n : Z)
| VFloat (repr : string)   (* a float, carried by its [repr()] text *)
| VStr (s : string)
| VList (items : list value)
| VDict (entries : list (string * value)).

Definition dict := list (string * value).

(** Exceptions the embedded code can raise.  [UpstreamError] stands for
    whatever [client.get], [raise_for_status] or [response.json] raise. *)
Inductive exn : Type :=
| KeyError (key : string)
| AttributeError (tyname attr : string)
| TypeError (what : string) (tyname : string)
| UpstreamError (detail : string).

Inductive result (A : Type) : Type :=
| Ok (a : A)
| Raise (e : exn).
Arguments Ok {A} a.
Arguments Raise {A} e.

Definition rbind {A B} (r : result A) (k : A -> result B) : result B :=
  match r with
  | Ok a => k a
  | Raise e => Raise e
  end.

Declare Scope result_scope.
Delimit Scope result_scope with res.
Notation "x <- c ;; k" := (rbind c (fun x => k))
  (at level 61, c at next level, right associativity) : result_scope.

Definition is_ok {A} (r : result A) : bool :=
  match r with Ok _ => true | Raise _ => false end.

(** A [for] loop whose body appends one item per element: elements are
    handled left to right and the first exception ends the loop. *)
Fixpoint mapM {A B} (f : A -> result B) (l : list A) : result (list B) :=
  match l with
  | [] => Ok []
  | x :: xs =>
      match f x with
      | Raise e => Raise e
      | Ok y =>
          match mapM f xs with
          | Raise e => Raise e
          | Ok ys => Ok (y :: ys)
          end
      end
  end.

Definition type_name (v : value) : string :=
  match v with
  | VNone => "NoneType"
  | VBool _ => "bool"
  | VInt _ => "int"
  | VFloat _ => "float"
  | VStr _ => "str"
  | VList _ => "list"
  | VDict _ => "dict"
  end.

(** *** Dictionaries *)

Fixpoint lookup (k : string) (d : dict) : option value :=
  match d with
  | [] => None
  | (k', v) :: d' => if String.eqb k k' then Some v else lookup k d'
  end.

Definition dict_get (d : dict) (k : string) (dflt : value) : value :=
  match lookup k d with
  | Some v => v
  | None => dflt
  end.

(** [d[k] = v]: an existing key keeps its place, a new key goes last. *)
Fixpoint setitem (k : string) (v : value) (d : dict) : dict :=
  match d with
  | [] => [(k, v)]
  | (k', v') :: d' =>
      if String.eqb k k' then (k', v) :: d' else (k', v') :: setitem k v d'
  end.

(** [d.update(other)] *)
Definition update (d other : dict) : dict :=
  fold_left (fun acc kv => setitem (fst kv) (snd kv) acc) other d.

(** *** Strings *)

Fixpoint contains_char (c : ascii) (s : string) : bool :=
  match s with
  | EmptyString => false
  | String c' s' => Ascii.eqb c c' || contains_char c s'
  end.

(** [s.startswith(p)] *)
Fixpoint starts_with (p s : string) : bool :=
  match p with
  | EmptyString => true
  | String a p' =>
      match s with
      | EmptyString => false
      | String b s' => Ascii.eqb a b && starts_with p' s'
      end
  end.

(** [needle in hay] for two strings *)
Fixpoint str_contains (needle hay : string) : bool :=
  starts_with needle hay
  || match hay with
     | EmptyString => false
     | String _ hay' => str_contains needle hay'
     end.

(** [s.split(c)] for a one-character separator: never the empty list. *)
Fixpoint split (c : ascii) (s : string) : list string :=
  match s with
  | EmptyString => [EmptyString]
  | String c' s' =>
      if Ascii.eqb c c' then EmptyString :: split c s'
      else match split c s' with
           | [] => [String c' EmptyString]
           | w :: ws => String c' w :: ws
           end
  end.

Fixpoint chars (s : string) : list value :=
  match s with
  | EmptyString => []
  | String c s' => VStr (String c EmptyString) :: chars s'
  end.

Definition str_of_Z (n : Z) : string :=
  NilZero.string_of_int (Z.to_int n).

Definition hex_digit (n : N) : ascii :=
  if (n <? 10)%N then ascii_of_N (48 + n) else ascii_of_N (87 + n).

Definition hex2 (c : ascii) : string :=
  let n := N_of_ascii c in
  String (hex_digit (n / 16)) (String (hex_digit (n mod 16)) EmptyString).

(** *** Operators on values *)

(** [v.get(k, dflt)]: only a dict has the method. *)
Definition get (v : value) (k : string) (dflt : value) : result value :=
  match v with
  | VDict d => Ok (dict_get d k dflt)
  | _ => Raise (AttributeError (type_name v) "get")
  end.

(** [k in v] for a string [k] *)
Definition contains (k : string) (v : value) : result bool :=
  match v with
  | VDict d => Ok (match lookup k d with Some _ => true | None => false end)
  | VList l =>
      Ok (existsb (fun x => match x with VStr s => String.eqb k s | _ => false end) l)
  | VStr s => Ok (str_contains k s)
  | _ => Raise (TypeError "argument is not iterable" (type_name v))
  end.

(** [v[k]] for a string [k] *)
Definition getitem (v : value) (k : string) : result value :=
  match v with
  | VDict d =>
      match lookup k d with
      | Some x => Ok x
      | None => Raise (KeyError k)
      end
  | VList _ | VStr _ => Raise (TypeError "indices must be integers" (type_name v))
  | _ => Raise (TypeError "object is not subscriptable" (type_name v))
  end.

(** The items a [for] loop over [v] visits. *)
Definition iter (v : value) : result (list value) :=
  match v with
  | VList l => Ok l
  | VStr s => Ok (chars s)
  | VDict d => Ok (map (fun kv => VStr (fst kv)) d)
  | _ => Raise (TypeError "object is not iterable" (type_name v))
  end.

(** How many items [xs[:stop]] keeps of a sequence of [len] items. *)
Definition slice_stop (len : nat) (stop : Z) : nat :=
  if stop <? 0 then Z.to_nat (Z.of_nat len + stop)
  else Nat.min (Z.to_nat stop) len.

Definition slice_index (stop : value) : result (option Z) :=
  match stop with
  | VNone => Ok None
  | VInt n => Ok (Some n)
  | VBool b => Ok (Some (if b then 1 else 0))
  | _ => Raise (TypeError "slice indices must be integers or None" (type_name stop))
  end.

Definition str_firstn (n : nat) (s : string) : string := String.substring 0 n s.

(** [v[:stop]] *)
Definition slice_to (v : value) (stop : value) : result value :=
  match v with
  | VList l =>
      (i <- slice_index stop ;;
       Ok (VList (match i with
                  | None => l
                  | Some n => firstn (slice_stop (List.length l) n) l
                  end)))%res
  | VStr s =>
      (i <- slice_index stop ;;
       Ok (VStr (match i with
                 | None => s
                 | Some n => str_firstn (slice_stop (String.length s) n) s
                 end)))%res
  | VDict _ => Raise (TypeError "unhashable type" "slice")
  | _ => Raise (TypeError "object is not subscriptable" (type_name v))
  end.

(** Truth value, as [if v:] and [not v] take it. *)
Definition truthy (v : value) : bool :=
  match v with
  | VNone => false
  | VBool b => b
  | VInt n => negb (n =? 0)
  | VFloat r => negb (String.eqb r "0.0" || String.eqb r "-0.0")
  | VStr s => negb (String.eqb s "")
  | VList l => match l with [] => false | _ => true end
  | VDict d => match d with [] => false | _ => true end
  end.

(** *** [repr], [str] and f-string formatting *)

Definition quote : ascii := "'"%char.
Definition dquote : ascii := "034"%char.
Definition backslash : ascii := "092"%char.

Definition printable (c : ascii) : bool :=
  let n := N_of_ascii c in
  ((32 <=? n) && (n <? 127) || (161 <=? n) && negb (n =? 173))%N.

Fixpoint repr_body (q : ascii) (s : string) : string :=
  match s with
  | EmptyString => EmptyString
  | String c s' =>
      (if Ascii.eqb c q || Ascii.eqb c backslash then String backslash (String c EmptyString)
       else if Ascii.eqb c "009"%char then String backslash "t"
       else if Ascii.eqb c "010"%char then String backslash "n"
       else if Ascii.eqb c "013"%char then String backslash "r"
       else if printable c then String c EmptyString
       else String backslash (String "x"%char (hex2 c)))
      ++ repr_body q s'
  end.

Definition repr_str (s : string) : string :=
  let q := if contains_char quote s && negb (contains_char dquote s)
           then dquote else quote in
  String q (repr_body q s ++ String q EmptyString).

Fixpoint repr (v : value) : string :=
  match v with
  | VNone => "None"
  | VBool true => "True"
  | VBool false => "False"
  | VInt n => str_of_Z n
  | VFloat r => r
  | VStr s => repr_str s
  | VList l => "[" ++ String.concat ", " (map repr l) ++ "]"
  | VDict d =>
      "{" ++ String.concat ", "
               (map (fun kv => repr_str (fst kv) ++ ": " ++ repr (snd kv)) d)
          ++ "}"
  end.

(** [str(v)], which is also what [f"{v}"] inserts. *)
Definition str (v : value) : string :=
  match v with
  | VStr s => s
  | _ => repr v
  end.

(** *** [json.dumps(v, indent=2)]

    The default encoder: [ensure_ascii] escapes every character outside
    [' '..'~'], separators are [","] and [": "], nested containers are
    indented by two spaces per level and empty ones stay on one line. *)

Definition newline : ascii := "010"%char.

Definition json_escape_char (c : ascii) : string :=
  if Ascii.eqb c backslash then String backslash (String backslash EmptyString)
  else if Ascii.eqb c dquote then String backslash (String dquote EmptyString)
  else if Ascii.eqb c "008"%char then String backslash "b"
  else if Ascii.eqb c "012"%char then String backslash "f"
  else if Ascii.eqb c newline then String backslash "n"
  else if Ascii.eqb c "013"%char then String backslash "r"
  else if Ascii.eqb c "009"%char then String backslash "t"
  else if ((32 <=? N_of_ascii c) && (N_of_ascii c <? 127))%N then String c EmptyString
  else String backslash ("u00" ++ hex2 c).

Fixpoint json_escape (s : string) : string :=
  match s with
  | EmptyString => EmptyString
  | String c s' => json_escape_char c ++ json_escape s'
  end.

Definition json_str (s : string) : string :=
  String dquote (json_escape s ++ String dquote EmptyString).

Definition json_float (r : string) : string :=
  if String.eqb r "nan" then "NaN"
  else if String.eqb r "inf" then "Infinity"
  else if String.eqb r "-inf" then "-Infinity"
  else r.

Fixpoint indent_to (level : nat) : string :=
  match level with
  | O => EmptyString
  | S n => "  " ++ indent_to n
  end.

Definition newline_indent (level : nat) : string :=
  String newline (indent_to level).

Fixpoint dumps_at (level : nat) (v : value) : string :=
  match v with
  | VNone => "null"
  | VBool true => "true"
  | VBool false => "false"
  | VInt n => str_of_Z n
  | VFloat r => json_float r
  | VStr s => json_str s
  | VList [] => "[]"
  | VList l =>
      "[" ++ newline_indent (S level)
          ++ String.concat ("," ++ newline_indent (S level))
               (map (dumps_at (S level)) l)
          ++ newline_indent level ++ "]"
  | VDict [] => "{}"
  | VDict d =>
      "{" ++ newline_indent (S level)
          ++ String.concat ("," ++ newline_indent (S level))
               (map (fun kv => json_str (fst kv) ++ ": " ++ dumps_at (S level) (snd kv)) d)
          ++ newline_indent level ++ "}"
  end.

Definition json_dumps (v : value) : string := dumps_at 0 v.

End Py.

Import Py.
Local Open Scope result_scope.


(** ** The tool catalog: [list_tools] *)

Record Tool := {
  name : string;
  description : string;
  inputSchema : value
}.

Definition schema (properties : dict) (required : list string) : value :=
  VDict [("type", VStr "object");
         ("properties", VDict properties);
         ("required", VList (map VStr required))].

Definition list_tools : list Tool :=
  [ {| name := "get_my_profile";
       description := "Get your LinkedIn profile information including name, headline, summary, experience, education, and skills";
       inputSchema := schema [] [] |};
    {| name := "get_profile_by_url";
       description := "Get information from any LinkedIn profile by its URL (e.g., linkedin.com/in/username)";
       inputSchema :=
         schema
           [("profile_url",
             VDict [("type", VStr "string");
                    ("description", VStr "Full LinkedIn profile URL or username (e.g., 'linkedin.com/in/johndoe' or 'johndoe')")])]
           ["profile_url"] |};
    {| name := "search_profiles";
       description := "Search for LinkedIn profiles by name, title, company, or keywords";
       inputSchema :=
         schema
           [("query",
             VDict [("type", VStr "string");
                    ("description", VStr "Search query (name, job title, company, keywords)")]);
            ("limit",
             VDict [("type", VStr "number");
                    ("description", VStr "Number of results to return (default: 10)");
                    ("default", VInt 10)])]
           ["query"] |};
    {| name := "search_jobs";
       description := "Search for job postings on LinkedIn";
       inputSchema :=
         schema
           [("keywords",
             VDict [("type", VStr "string");
                    ("description", VStr "Job search keywords (e.g., 'software engineer', 'data analyst')")]);
            ("location",
             VDict [("type", VStr "string");
                    ("description", VStr "Location for job search (e.g., 'San Francisco', 'Remote')");
                    ("default", VStr "")]);
            ("limit",
             VDict [("type", VStr "number");
                    ("description", VStr "Number of results (default: 10)");
                    ("default", VInt 10)])]
           ["keywords"] |};
    {| name := "get_my_connections";
       description := "Get a list of your LinkedIn connections";
       inputSchema :=
         schema
           [("limit",
             VDict [("type", VStr "number");
                    ("description", VStr "Number of connections to retrieve (default: 20)");
                    ("default", VInt 20)])]
           [] |};
    {| name := "get_feed";
       description := "Get recent posts from your LinkedIn feed";
       inputSchema :=
         schema
           [("limit",
             VDict [("type", VStr "number");
                    ("description", VStr "Number of posts to retrieve (default: 10)");
                    ("default", VInt 10)])]
           [] |} ].

(** Reading a catalog entry: its parameters, their declared types and the
    parameters it requires. *)

Definition schema_properties (t : Tool) : dict :=
  match inputSchema t with
  | VDict s => match lookup "properties" s with
               | Some (VDict props) => props
               | _ => []
               end
  | _ => []
  end.

Definition parameter_types (t : Tool) : list (option value) :=
  map (fun kv => match snd kv with
                 | VDict p => lookup "type" p
                 | _ => None
                 end) (schema_properties t).

Definition required_parameters (t : Tool) : list value :=
  match inputSchema t with
  | VDict s => match lookup "required" s with
               | Some (VList names) => names
               | _ => []
               end
  | _ => []
  end.

Definition string_or_number (ty : option value) : bool :=
  match ty with
  | Some (VStr s) => String.eqb s "string" || String.eqb s "number"
  | _ => false
  end.

Definition nonempty (s : string) : bool := negb (String.eqb s "").

(** ** Response normalizers

    Each method parses the upstream document after [data = response.json()];
    that part is a function of [data] (and of the method's arguments). *)

Definition profile_link (who : string) : string :=
  "https://www.linkedin.com/in/" ++ who.

Definition full_name (first last : value) : value :=
  VStr (str first ++ " " ++ str last).

(** *** Profile: [get_profile_by_url], lines 213-276 *)

(** [profile_url.split('/')[-1].split('?')[0]], then the test that falls
    back to the whole argument. *)
Definition extract_username (profile_url : string) : string :=
  let username := hd "" (split "?" (last (split "/" profile_url) "")) in
  if negb (str_contains "linkedin.com" username) then profile_url else username.

Definition month_year (d : value) : result value :=
  month <- get d "month" (VStr "") ;;
  year <- get d "year" (VStr "") ;;
  Ok (VStr (str month ++ "/" ++ str year)).

Definition with_date (field key : string) (time_period : value) (experience : dict)
  : result dict :=
  present <- contains key time_period ;;
  if (present : bool) then
    d <- getitem time_period key ;;
    text <- month_year d ;;
    Ok (setitem field text experience)
  else Ok experience.

Definition experience_entry (pos : value) : result value :=
  title <- get pos "title" (VStr "") ;;
  company <- get pos "companyName" (VStr "") ;;
  descr <- get pos "description" (VStr "") ;;
  location <- get pos "locationName" (VStr "") ;;
  let experience := [("title", title); ("company", company);
                     ("description", descr); ("location", location)] in
  dated <- contains "timePeriod" pos ;;
  if (dated : bool) then
    time_period <- getitem pos "timePeriod" ;;
    experience <- with_date "start_date" "startDate" time_period experience ;;
    experience <- with_date "end_date" "endDate" time_period experience ;;
    Ok (VDict experience)
  else Ok (VDict experience).

Definition education_entry (school : value) : result value :=
  name <- get school "schoolName" (VStr "") ;;
  degree <- get school "degreeName" (VStr "") ;;
  field <- get school "fieldOfStudy" (VStr "") ;;
  Ok (VDict [("school", name); ("degree", degree); ("field", field)]).

Definition skill_entry (skill : value) : result value :=
  get skill "name" (VStr "").

(** [data.get(view, {}).get('elements', [])] *)
Definition view_elements (data : value) (view : string) : result value :=
  v <- get data view (VDict []) ;;
  get v "elements" (VList []).

Definition parse_profile (username : string) (data : value) : result dict :=
  profile_data <- get data "profile" (VDict []) ;;
  first <- get profile_data "firstName" (VStr "") ;;
  last <- get profile_data "lastName" (VStr "") ;;
  headline <- get profile_data "headline" (VStr "") ;;
  summary <- get profile_data "summary" (VStr "") ;;
  location <- get profile_data "locationName" (VStr "") ;;
  industry <- get profile_data "industryName" (VStr "") ;;
  positions <- view_elements data "positionView" ;;
  positions <- iter positions ;;
  experience <- mapM experience_entry positions ;;
  schools <- view_elements data "educationView" ;;
  schools <- iter schools ;;
  education <- mapM education_entry schools ;;
  skills <- view_elements data "skillView" ;;
  top <- slice_to skills (VInt 10) ;;
  top <- iter top ;;
  skills <- mapM skill_entry top ;;
  Ok [("name", full_name first last);
      ("headline", headline);
      ("summary", summary);
      ("location", location);
      ("industry", industry);
      ("profile_url", VStr (profile_link username));
      ("experience", VList experience);
      ("education", VList education);
      ("skills", VList skills)].

(** *** Own profile: the minimal record of [get_my_profile], lines 194-202 *)

Definition parse_me (data : value) : result (dict * value) :=
  first <- get data "firstName" (VStr "") ;;
  last <- get data "lastName" (VStr "") ;;
  headline <- get data "headline" (VStr "") ;;
  ident <- get data "publicIdentifier" (VStr "") ;;
  username <- get data "publicIdentifier" VNone ;;
  Ok ([("name", full_name first last);
       ("headline", headline);
       ("publicIdentifier", ident);
       ("profile_url", VStr (profile_link (str ident)))],
      username).

(** *** People search: [search_profiles], lines 294-307 *)

Definition count_of (records : list value) : value :=
  VInt (Z.of_nat (List.length records)).

Definition hit (element : value) (kind : string) : result value :=
  info <- get element "hitInfo" (VDict []) ;;
  get info kind (VDict []).

Definition profile_hit (element : value) : result value :=
  profile <- hit element "*profile" ;;
  first <- get profile "firstName" (VStr "") ;;
  last <- get profile "lastName" (VStr "") ;;
  headline <- get profile "headline" (VStr "") ;;
  location <- get profile "geoLocationName" (VStr "") ;;
  ident <- get profile "publicIdentifier" (VStr "") ;;
  Ok (VDict [("name", full_name first last);
             ("headline", headline);
             ("location", location);
             ("public_id", ident);
             ("profile_url", VStr (profile_link (str ident)))]).

Definition parse_search_profiles (data : value) : result dict :=
  elements <- get data "elements" (VList []) ;;
  elements <- iter elements ;;
  results <- mapM profile_hit elements ;;
  Ok [("count", count_of results); ("results", VList results)].

(** *** Job search: [search_jobs], lines 331-344 *)

Definition job_hit (element : value) : result value :=
  job <- hit element "*jobPosting" ;;
  title <- get job "title" (VStr "") ;;
  company <- get job "companyName" (VStr "") ;;
  location <- get job "formattedLocation" (VStr "") ;;
  ident <- get job "jobPostingId" (VStr "") ;;
  posted <- get job "listedAt" (VStr "") ;;
  Ok (VDict [("title", title);
             ("company", company);
             ("location", location);
             ("job_url", VStr ("https://www.linkedin.com/jobs/view/" ++ str ident));
             ("posted", posted)]).

Definition parse_search_jobs (data : value) : result dict :=
  elements <- get data "elements" (VList []) ;;
  elements <- iter elements ;;
  jobs <- mapM job_hit elements ;;
  Ok [("count", count_of jobs); ("jobs", VList jobs)].

(** *** Connections: [get_my_connections], lines 357-368 *)

Definition connection_entry (element : value) : result value :=
  conn <- get element "connectedMember" (VDict []) ;;
  first <- get conn "firstName" (VStr "") ;;
  last <- get conn "lastName" (VStr "") ;;
  headline <- get conn "headline" (VStr "") ;;
  ident <- get conn "publicIdentifier" (VStr "") ;;
  Ok (VDict [("name", full_name first last);
             ("headline", headline);
             ("profile_url", VStr (profile_link (str ident)))]).

Definition parse_connections (data : value) : result dict :=
  elements <- get data "elements" (VList []) ;;
  elements <- iter elements ;;
  connections <- mapM connection_entry elements ;;
  Ok [("count", count_of connections); ("connections", VList connections)].

(** *** Feed: [get_feed], lines 381-401 *)

Definition update_key : string := "com.linkedin.voyager.feed.render.UpdateV2".

Definition post_text (element : value) : result value :=
  has_value <- contains "value" element ;;
  if (has_value : bool) then
    value <- getitem element "value" ;;
    rendered <- contains update_key value ;;
    if (rendered : bool) then
      update <- getitem value update_key ;;
      commentary <- get update "commentary" (VDict []) ;;
      text <- get commentary "text" (VDict []) ;;
      get text "text" (VStr "")
    else Ok (VStr "")
  else Ok (VStr "").

Definition feed_post (element : value) : result value :=
  text <- post_text element ;;
  Ok (VDict [("text", text); ("author", VStr ""); ("timestamp", VStr "")]).

Definition parse_feed (limit : value) (data : value) : result dict :=
  elements <- get data "elements" (VList []) ;;
  shown <- slice_to elements limit ;;
  shown <- iter shown ;;
  posts <- mapM feed_post shown ;;
  Ok [("count", count_of posts); ("posts", VList posts)].

(** ** The server object and the upstream service

    [world] holds the two attributes of the server that its methods read and
    write, and the requests sent upstream so far. *)

Record AsyncClient := {
  headers : list (string * string);
  cookies : list (string * option string);
  timeout : value;
  follow_redirects : bool
}.

Record request := {
  client : AsyncClient;
  url : string;
  params : option dict
}.

Record world := {
  li_at_cookie : option string;     (* [os.getenv("LINKEDIN_SESSION_COOKIE")] *)
  session : option AsyncClient;
  sent : list request
}.

Definition M (A : Type) : Type := world -> result A * world.

Definition ret {A} (a : A) : M A := fun w => (Ok a, w).

Definition bind {A B} (m : M A) (k : A -> M B) : M B :=
  fun w => match m w with
           | (Ok a, w') => k a w'
           | (Raise e, w') => (Raise e, w')
           end.

Definition lift {A} (r : result A) : M A := fun w => (r, w).

Declare Scope method_scope.
Delimit Scope method_scope with method.
Notation "x <- c ;; k" := (bind c (fun x => k))
  (at level 61, c at next level, right associativity) : method_scope.
Notation "' pat <- c ;; k" := (bind c (fun x => match x with pat => k end))
  (at level 61, pat pattern, c at next level, right associativity) : method_scope.

Record TextContent := {
  type : string;
  text : string
}.

Definition missing_cookie_message : string :=
  "Error: LINKEDIN_SESSION_COOKIE environment variable not set. Please configure your LinkedIn session cookie.".

Definition cookie_hint : string :=
  String newline (String newline
    "Make sure your LinkedIn session cookie is valid and not expired.").

(** [not self.li_at_cookie]: the variable is unset or empty. *)
Definition cookie_unset (c : option string) : bool :=
  match c with
  | None => true
  | Some s => String.eqb s ""
  end.

Section Server.

(** What the upstream service answers to a request, given the requests it
    has seen before: the parsed JSON document, or the exception of
    [client.get], [raise_for_status] or [response.json]. *)
Variable upstream : list request -> request -> result value.

(** [str(e)], the interpreter's text of an exception. *)
Variable str_exn : exn -> string.

Local Open Scope method_scope.

Definition get_http_client : M AsyncClient :=
  fun w =>
    match session w with
    | Some c => (Ok c, w)
    | None =>
        let c := {| headers :=
                      [("User-Agent", "Mozilla/5.0 (Macintosh; Intel Mac OS X 10_15_7) AppleWebKit/537.36");
                       ("Accept", "application/json");
                       ("Accept-Language", "en-US,en;q=0.9");
                       ("csrf-token", "ajax:8234567890123456789")];
                    cookies := [("li_at", li_at_cookie w)];
                    timeout := VFloat "30.0";
                    follow_redirects := true |} in
        (Ok c, {| li_at_cookie := li_at_cookie w; session := Some c; sent := sent w |})
    end.

(** [response = await client.get(url, params=...)], [raise_for_status()],
    [response.json()] *)
Definition fetch (c : AsyncClient) (u : string) (p : option dict) : M value :=
  fun w =>
    let rq := {| client := c; url := u; params := p |} in
    (upstream (sent w) rq,
     {| li_at_cookie := li_at_cookie w; session := session w;
        sent := (sent w ++ [rq])%list |}).

Definition get_profile_by_url (profile_url : value) : M dict :=
  c <- get_http_client ;;
  username <- lift match profile_url with
                   | VStr s => Ok (extract_username s)
                   | _ => Raise (AttributeError (type_name profile_url) "split")
                   end ;;
  data <- fetch c ("https://www.linkedin.com/voyager/api/identity/profiles/"
                     ++ username ++ "/profileView") None ;;
  lift (parse_profile username data).

Definition get_my_profile : M dict :=
  c <- get_http_client ;;
  data <- fetch c "https://www.linkedin.com/voyager/api/me" None ;;
  '(profile, username) <- lift (parse_me data) ;;
  if truthy username then
    detailed <- get_profile_by_url username ;;
    ret (update profile detailed)
  else ret profile.

Definition search_profiles (query limit : value) : M dict :=
  c <- get_http_client ;;
  data <- fetch c "https://www.linkedin.com/voyager/api/search/blended"
            (Some [("keywords", query);
                   ("filters", VStr "List(resultType->PEOPLE)");
                   ("queryContext", VStr "List(spellCorrectionEnabled->true)");
                   ("count", limit)]) ;;
  lift (parse_search_profiles data).

Definition search_jobs (keywords location limit : value) : M dict :=
  c <- get_http_client ;;
  let params := [("keywords", keywords); ("count", limit)] in
  let params := if truthy location then setitem "location" location params
                else params in
  data <- fetch c "https://www.linkedin.com/voyager/api/search/blended"
            (Some (setitem "queryContext" (VStr "List(spellCorrectionEnabled->true)")
                     (setitem "filters" (VStr "List(resultType->JOBS)") params))) ;;
  lift (parse_search_jobs data).

Definition get_my_connections (limit : value) : M dict :=
  c <- get_http_client ;;
  data <- fetch c "https://www.linkedin.com/voyager/api/relationships/connections"
            (Some [("count", limit)]) ;;
  lift (parse_connections data).

Definition get_feed (limit : value) : M dict :=
  c <- get_http_client ;;
  data <- fetch c "https://www.linkedin.com/voyager/api/feed/updates"
            (Some [("count", limit)]) ;;
  lift (parse_feed limit data).

(** The body of the [try] block of [call_tool], up to [result]. *)
Definition dispatch (name : string) (arguments : dict) : M value :=
  if String.eqb name "get_my_profile" then
    r <- get_my_profile ;; ret (VDict r)
  else if String.eqb name "get_profile_by_url" then
    profile_url <- lift (getitem (VDict arguments) "profile_url") ;;
    r <- get_profile_by_url profile_url ;; ret (VDict r)
  else if String.eqb name "search_profiles" then
    query <- lift (getitem (VDict arguments) "query") ;;
    let limit := dict_get arguments "limit" (VInt 10) in
    r <- search_profiles query limit ;; ret (VDict r)
  else if String.eqb name "search_jobs" then
    keywords <- lift (getitem (VDict arguments) "keywords") ;;
    let location := dict_get arguments "location" (VStr "") in
    let limit := dict_get arguments "limit" (VInt 10) in
    r <- search_jobs keywords location limit ;; ret (VDict r)
  else if String.eqb name "get_my_connections" then
    let limit := dict_get arguments "limit" (VInt 20) in
    r <- get_my_connections limit ;; ret (VDict r)
  else if String.eqb name "get_feed" then
    let limit := dict_get arguments "limit" (VInt 10) in
    r <- get_feed limit ;; ret (VDict r)
  else ret (VStr ("Unknown tool: " ++ name)).

Definition text_content (t : string) : TextContent :=
  {| type := "text"; text := t |}.

Definition call_tool (name : string) (arguments : dict) : M (list TextContent) :=
  fun w =>
    if cookie_unset (li_at_cookie w) then
      (Ok [text_content missing_cookie_message], w)
    else
      match dispatch name arguments w with
      | (Ok result, w') => (Ok [text_content (json_dumps result)], w')
      | (Raise e, w') =>
          (Ok [text_content ("Error: " ++ str_exn e ++ cookie_hint)], w')
      end.

End Server.

(** ** Shapes of upstream documents

    The normalizers read a key with [.get(key, default)] or behind an [in]
    test, and then use the value as an object or as an array of objects.
    A shape says, for the keys a normalizer reads: the key is absent, or it
    holds a value of that kind.  Keys the normalizer does not read are free. *)

Definition is_dict (v : value) : bool :=
  match v with VDict _ => true | _ => false end.

Definition object_with (p : dict -> bool) (v : value) : bool :=
  match v with VDict d => p d | _ => false end.

Definition list_of (p : value -> bool) (v : value) : bool :=
  match v with VList l => forallb p l | _ => false end.

Definition absent_or (p : value -> bool) (k : string) (d : dict) : bool :=
  match lookup k d with
  | None => true
  | Some v => p v
  end.

(** [key] is absent or an object whose ["elements"] are absent or an array
    of [p]-shaped items. *)
Definition view_of (p : value -> bool) (key : string) : dict -> bool :=
  absent_or (object_with (absent_or (list_of p) "elements")) key.

Definition position_shape : value -> bool :=
  object_with
    (absent_or
       (object_with (fun tp => absent_or is_dict "startDate" tp
                               && absent_or is_dict "endDate" tp))
       "timePeriod").

Definition profile_shape : value -> bool :=
  object_with (fun d => absent_or is_dict "profile" d
                        && view_of position_shape "positionView" d
                        && view_of is_dict "educationView" d
                        && view_of is_dict "skillView" d).

Definition hit_shape (kind : string) : value -> bool :=
  object_with (absent_or (object_with (absent_or is_dict kind)) "hitInfo").

Definition connection_shape : value -> bool :=
  object_with (absent_or is_dict "connectedMember").

Definition post_shape : value -> bool :=
  object_with
    (absent_or
       (object_with
          (absent_or
             (object_with
                (absent_or (object_with (absent_or is_dict "text")) "commentary"))
             update_key))
       "value").

(** A result set: an object whose ["elements"] are absent or an array of
    [p]-shaped items. *)
Definition results_shape (p : value -> bool) : value -> bool :=
  object_with (absent_or (list_of p) "elements").

(** The result elements of a document, none when the key is absent. *)
Definition elements_of (data : value) : list value :=
  match data with
  | VDict d => match dict_get d "elements" (VList []) with
               | VList l => l
               | _ => []
               end
  | _ => []
  end.

(** An element without the update-rendering variant: no ["value"], or a
    ["value"] object without the variant key. *)
Definition lacks_update (element : value) : bool :=
  match element with
  | VDict e =>
      match lookup "value" e with
      | None => true
      | Some (VDict v) => match lookup update_key v with
                          | None => true
                          | Some _ => false
                          end
      | Some _ => false
      end
  | _ => false
  end.

Definition empty_post : value :=
  VDict [("text", VStr ""); ("author", VStr ""); ("timestamp", VStr "")].

(** A message that reports a failure. *)
Definition is_error_message (t : string) : bool := starts_with "Error: " t.

Definition tool_names : list string := map name list_tools.

(** The [count] parameter a request carries, and the world once a method
    has sent [rq] through the shared client. *)
Definition forwarded_count (rq : request) : option value :=
  match params rq with
  | Some p => lookup "count" p
  | None => None
  end.

Definition after (w : world) (rq : request) : world :=
  {| li_at_cookie := li_at_cookie w;
     session := Some (client rq);
     sent := (sent w ++ [rq])%list |}.

(** ** The life of the server object *)

(** [__init__]: the cookie is read from the environment once, there is no
    client yet and nothing has been sent. *)
Definition init (cookie : option string) : world :=
  {| li_at_cookie := cookie; session := None; sent := [] |}.

(** The client the next request of [w] goes through: the one of the session
    when there is one, else the one [get_http_client] is about to create. *)
Definition the_client (w : world) : AsyncClient :=
  match session w with
  | Some c => c
  | None =>
      {| headers :=
           [("User-Agent", "Mozilla/5.0 (Macintosh; Intel Mac OS X 10_15_7) AppleWebKit/537.36");
            ("Accept", "application/json");
            ("Accept-Language", "en-US,en;q=0.9");
            ("csrf-token", "ajax:8234567890123456789")];
         cookies := [("li_at", li_at_cookie w)];
         timeout := VFloat "30.0";
         follow_redirects := true |}
  end.

Definition opened (w : world) : world :=
  {| li_at_cookie := li_at_cookie w;
     session := Some (the_client w);
     sent := sent w |}.

(** [w'] comes from [w] by at most [n] requests, all through the client of
    [w]; the cookie is the same and a session that exists is kept. *)
Definition grows (n : nat) (w w' : world) : Prop :=
  li_at_cookie w' = li_at_cookie w
  /\ (w' = w \/ session w' = Some (the_client w))
  /\ exists new,
       sent w' = (sent w ++ new)%list
       /\ (List.length new <= n)%nat
       /\ Forall (fun rq => client rq = the_client w) new.

(** The worlds a server started with [cookie] can be in: after [__init__]
    and after each call of [call_tool]. *)
Inductive reachable (upstream : list request -> request -> result value)
    (str_exn : exn -> string) (cookie : option string) : world -> Prop :=
| reachable_init : reachable upstream str_exn cookie (init cookie)
| reachable_call tool arguments w :
    reachable upstream str_exn cookie w ->
    reachable upstream str_exn cookie
      (snd (call_tool upstream str_exn tool arguments w)).

(** The session, when there is one, holds the cookie of the environment
    and every request was sent with it; without a cookie there is no session
    and no request. *)
Definition consistent (cookie : option string) (w : world) : Prop :=
  li_at_cookie w = cookie
  /\ match session w with
     | None => sent w = []
     | Some c =>
         cookie_unset cookie = false
         /\ cookies c = [("li_at", cookie)]
         /\ Forall (fun rq => client rq = c) (sent w)
     end.

(** The default a catalog entry declares for a parameter. *)
Definition declared_default (t : Tool) (p : string) : option value :=
  match lookup p (schema_properties t) with
  | Some (VDict d) => lookup "default" d
  | _ => None
  end.


(** The text of a date of a position: the month and the year of
    [timePeriod[key]], each empty when missing. *)
Definition date_text (key : string) (pos : dict) : option value :=
  match lookup "timePeriod" pos with
  | Some (VDict tp) =>
      match lookup key tp with
      | Some (VDict d) =>
          Some (VStr (str (dict_get d "month" (VStr "")) ++ "/"
                        ++ str (dict_get d "year" (VStr ""))))
      | _ => None
      end
  | _ => None
  end.

(** The last path segment of a profile argument, up to a question mark. *)
Definition last_segment (profile_url : string) : string :=
  hd "" (split "?" (last (split "/" profile_url) "")).

Definition me_url : string := "https://www.linkedin.com/voyager/api/me".

Definition profile_view_url (username : string) : string :=
  "https://www.linkedin.com/voyager/api/identity/profiles/" ++ username ++ "/profileView".

(** A query parameter of a request. *)
Definition query_param (k : string) (rq : request) : option value :=
  match params rq with
  | Some p => lookup k p
  | None => None
  end.

Definition is_str (v : value) : bool :=
  match v with VStr _ => true | _ => false end.

(** ** The records of the result sets

    What each result loop puts into its record, read off the dict literals
    of lines 299-305, 336-342, 362-366 and 385-397: the nested object the
    fields come from, and the record built from it. *)

(** [x] is the people-search record of the element [el]. *)
Definition is_person_record (el x : value) : Prop :=
  exists e info p,
    el = VDict e
    /\ dict_get e "hitInfo" (VDict []) = VDict info
    /\ dict_get info "*profile" (VDict []) = VDict p
    /\ x = VDict [("name", full_name (dict_get p "firstName" (VStr ""))
                                     (dict_get p "lastName" (VStr "")));
                  ("headline", dict_get p "headline" (VStr ""));
                  ("location", dict_get p "geoLocationName" (VStr ""));
                  ("public_id", dict_get p "publicIdentifier" (VStr ""));
                  ("profile_url",
                   VStr (profile_link (str (dict_get p "publicIdentifier" (VStr "")))))].

(** [x] is the job record of the element [el]. *)
Definition is_job_record (el x : value) : Prop :=
  exists e info job,
    el = VDict e
    /\ dict_get e "hitInfo" (VDict []) = VDict info
    /\ dict_get info "*jobPosting" (VDict []) = VDict job
    /\ x = VDict [("title", dict_get job "title" (VStr ""));
                  ("company", dict_get job "companyName" (VStr ""));
                  ("location", dict_get job "formattedLocation" (VStr ""));
                  ("job_url",
                   VStr ("https://www.linkedin.com/jobs/view/"
                           ++ str (dict_get job "jobPostingId" (VStr ""))));
                  ("posted", dict_get job "listedAt" (VStr ""))].

(** [x] is the connection record of the element [el]. *)
Definition is_connection_record (el x : value) : Prop :=
  exists e c,
    el = VDict e
    /\ dict_get e "connectedMember" (VDict []) = VDict c
    /\ x = VDict [("name", full_name (dict_get c "firstName" (VStr ""))
                                     (dict_get c "lastName" (VStr "")));
                  ("headline", dict_get c "headline" (VStr ""));
                  ("profile_url",
                   VStr (profile_link (str (dict_get c "publicIdentifier" (VStr "")))))].

(** [x] is the post of the feed element [el], an object whose ["value"]
    and the objects below it are objects where present: the text is the
    commentary text of the update-rendering variant, empty when the element
    has no ["value"], when the value has no variant, or when the text is
    missing. *)
Definition is_post_of (el x : value) : Prop :=
  exists e t,
    el = VDict e
    /\ x = VDict [("text", t); ("author", VStr ""); ("timestamp", VStr "")]
    /\ match lookup "value" e with
       | None => t = VStr ""
       | Some value =>
           exists v,
             value = VDict v
             /\ match lookup update_key v with
                | None => t = VStr ""
                | Some update =>
                    exists u c tx,
                      update = VDict u
                      /\ dict_get u "commentary" (VDict []) = VDict c
                      /\ dict_get c "text" (VDict []) = VDict tx
                      /\ t = dict_get tx "text" (VStr "")
                end
       end.

(** * Properties *)

(** ** The runtime *)

Example repr_nested :
  repr (VList [VStr "a'b"; VInt (-3); VDict [("k", VNone)]])
  = "[" ++ String dquote "a'b" ++ String dquote ", -3, {'k': None}]".
Proof. reflexivity. Qed.

Example split_url :
  split "/" "https://www.linkedin.com/in/johndoe"
  = ["https:"; ""; "www.linkedin.com"; "in"; "johndoe"].
Proof. reflexivity. Qed.

Example slice_negative :
  slice_to (VList [VInt 1; VInt 2; VInt 3]) (VInt (-1)) = Ok (VList [VInt 1; VInt 2]).
Proof. reflexivity. Qed.

Example dumps_record :
  let q := String dquote EmptyString in
  json_dumps (VDict [("count", VInt 1); ("posts", VList [VDict []; VStr "a/b"])])
  = "{" ++ String newline ("  " ++ q ++ "count" ++ q ++ ": 1,")
        ++ String newline ("  " ++ q ++ "posts" ++ q ++ ": [")
        ++ String newline "    {},"
        ++ String newline ("    " ++ q ++ "a/b" ++ q)
        ++ String newline "  ]" ++ String newline "}".
Proof. reflexivity. Qed.

Example dumps_escapes :
  json_dumps (VStr (String dquote (String backslash (String newline (String "233"%char "z")))))
  = String dquote
      (String backslash (String dquote
         (String backslash (String backslash
            (String backslash ("n" ++ String backslash ("u00e9z" ++ String dquote EmptyString))))))).
Proof. reflexivity. Qed.

Lemma mapM_Forall2 {A B} (f : A -> result B) l ys :
  mapM f l = Ok ys <-> Forall2 (fun x y => f x = Ok y) l ys.
Proof.
  revert ys. induction l as [|x xs IH]; intros ys; simpl.
  - split.
    + intros H. injection H as <-. constructor.
    + intros H. inversion H. reflexivity.
  - split.
    + destruct (f x) as [y|e] eqn:Hx; [|discriminate].
      destruct (mapM f xs) as [zs|e] eqn:Hxs; [|discriminate].
      intros H. injection H as <-. constructor; [exact Hx|]. apply IH. reflexivity.
    + intros H. inversion H as [|a b l1 l2 Hab Hrest]; subst.
      rewrite Hab. apply IH in Hrest. rewrite Hrest. reflexivity.
Qed.


Lemma mapM_total {A B} (f : A -> result B) l :
  (forall x, In x l -> exists y, f x = Ok y) -> exists ys, mapM f l = Ok ys.
Proof.
  induction l as [|x xs IH]; intros H; simpl.
  - eexists; reflexivity.
  - destruct (H x (or_introl eq_refl)) as [y ->].
    destruct IH as [ys ->]; [intros z Hz; apply H; right; exact Hz|].
    eexists; reflexivity.
Qed.

Lemma mapM_shaped {A B} (f : A -> result B) (p : A -> bool) l :
  (forall x, p x = true -> exists y, f x = Ok y) ->
  forallb p l = true -> exists ys, mapM f l = Ok ys.
Proof.
  intros Hf Hl. apply mapM_total. intros x Hx. apply Hf.
  rewrite forallb_forall in Hl. apply Hl, Hx.
Qed.

(** ** Reading shaped documents *)

Lemma object_with_inv p v :
  object_with p v = true -> exists d, v = VDict d /\ p d = true.
Proof. destruct v; simpl; try discriminate. intros H. eexists; split; [reflexivity|exact H]. Qed.

Lemma is_dict_inv v : is_dict v = true -> exists d, v = VDict d.
Proof. destruct v; simpl; try discriminate. intros _. eexists; reflexivity. Qed.

Lemma list_of_inv p v :
  list_of p v = true -> exists l, v = VList l /\ forallb p l = true.
Proof. destruct v; simpl; try discriminate. intros H. eexists; split; [reflexivity|exact H]. Qed.

(** A defaulted read of a key that is absent or [p]-shaped is [p]-shaped
    as soon as the default is. *)
Lemma absent_or_get p k d dflt :
  absent_or p k d = true -> p dflt = true -> p (dict_get d k dflt) = true.
Proof.
  unfold absent_or, dict_get. destruct (lookup k d); intros H1 H2; assumption.
Qed.

Lemma view_elements_shaped p key d :
  view_of p key d = true ->
  exists l, view_elements (VDict d) key = Ok (VList l) /\ forallb p l = true.
Proof.
  intros H. unfold view_elements. simpl.
  apply (absent_or_get _ _ _ (VDict [])) in H; [|reflexivity].
  apply object_with_inv in H as (v & -> & Hv). simpl.
  apply (absent_or_get _ _ _ (VList [])) in Hv; [|reflexivity].
  apply list_of_inv in Hv as (l & -> & Hl).
  exists l. split; [reflexivity|exact Hl].
Qed.

Lemma results_shape_elements p data :
  results_shape p data = true ->
  exists d, data = VDict d /\ dict_get d "elements" (VList []) = VList (elements_of data)
            /\ forallb p (elements_of data) = true.
Proof.
  intros H. apply object_with_inv in H as (d & -> & Hd).
  apply (absent_or_get _ _ _ (VList [])) in Hd; [|reflexivity].
  apply list_of_inv in Hd as (l & Hl & Hp).
  exists d. simpl. rewrite Hl. auto.
Qed.

(** ** The per-element extractors return on shaped elements *)

Lemma hit_total kind element :
  hit_shape kind element = true -> exists d, hit element kind = Ok (VDict d).
Proof.
  intros H. apply object_with_inv in H as (e & -> & He).
  apply (absent_or_get _ _ _ (VDict [])) in He; [|reflexivity].
  apply object_with_inv in He as (info & Hinfo & Hk).
  apply (absent_or_get _ _ _ (VDict [])) in Hk; [|reflexivity].
  apply is_dict_inv in Hk as (d & Hd).
  exists d. unfold hit. simpl. rewrite Hinfo. simpl. rewrite Hd. reflexivity.
Qed.

Lemma job_hit_total element :
  hit_shape "*jobPosting" element = true -> exists r, job_hit element = Ok r.
Proof.
  intros H. apply hit_total in H as (d & Hd).
  unfold job_hit. rewrite Hd. simpl. eexists; reflexivity.
Qed.

Lemma profile_hit_total element :
  hit_shape "*profile" element = true -> exists r, profile_hit element = Ok r.
Proof.
  intros H. apply hit_total in H as (d & Hd).
  unfold profile_hit. rewrite Hd. simpl. eexists; reflexivity.
Qed.

Lemma connection_entry_total element :
  connection_shape element = true -> exists r, connection_entry element = Ok r.
Proof.
  intros H. apply object_with_inv in H as (e & -> & He).
  apply (absent_or_get _ _ _ (VDict [])) in He; [|reflexivity].
  apply is_dict_inv in He as (d & Hd).
  unfold connection_entry. simpl. rewrite Hd. simpl. eexists; reflexivity.
Qed.

Lemma education_entry_total school :
  is_dict school = true -> exists r, education_entry school = Ok r.
Proof.
  intros H. apply is_dict_inv in H as (d & ->). eexists; reflexivity.
Qed.

Lemma skill_entry_dict d :
  skill_entry (VDict d) = Ok (dict_get d "name" (VStr "")).
Proof. reflexivity. Qed.

Lemma skill_entry_total skill :
  is_dict skill = true -> exists r, skill_entry skill = Ok r.
Proof.
  intros H. apply is_dict_inv in H as (d & ->). eexists; apply skill_entry_dict.
Qed.

Lemma with_date_total field key tp experience :
  absent_or is_dict key tp = true ->
  exists experience', with_date field key (VDict tp) experience = Ok experience'.
Proof.
  unfold absent_or, with_date, contains, getitem, rbind.
  destruct (lookup key tp) as [d|] eqn:Hd; intros H.
  - apply is_dict_inv in H as (dd & ->). eexists; reflexivity.
  - eexists; reflexivity.
Qed.

Lemma experience_entry_total pos :
  position_shape pos = true -> exists r, experience_entry pos = Ok r.
Proof.
  intros H. apply object_with_inv in H as (e & -> & He).
  unfold experience_entry, get, contains, getitem, absent_or in *.
  unfold rbind at 1 2 3 4 5.
  destruct (lookup "timePeriod" e) as [tp|] eqn:Htp.
  - apply object_with_inv in He as (t & -> & Ht).
    apply andb_true_iff in Ht as (Hs & He').
    unfold rbind at 1.
    match goal with
    | |- context [with_date "start_date" "startDate" (VDict t) ?x] =>
        destruct (with_date_total "start_date" "startDate" t x Hs) as (x1 & ->)
    end.
    unfold rbind at 1.
    destruct (with_date_total "end_date" "endDate" t x1 He') as (x2 & ->).
    eexists; reflexivity.
  - eexists; reflexivity.
Qed.

(** An element without the update-rendering variant gives the empty post. *)
Lemma feed_post_lacks_update element :
  lacks_update element = true -> feed_post element = Ok empty_post.
Proof.
  destruct element as [| | | | |l|e]; try discriminate.
  unfold lacks_update, feed_post, post_text, contains, getitem.
  destruct (lookup "value" e) as [v|] eqn:Hv; [|reflexivity].
  destruct v as [| | | | |l|v]; try discriminate.
  unfold rbind at 2 3 4.
  destruct (lookup update_key v); [discriminate|reflexivity].
Qed.

Lemma feed_post_total element :
  post_shape element = true -> exists r, feed_post element = Ok r.
Proof.
  intros H. apply object_with_inv in H as (e & -> & He).
  unfold feed_post, post_text, contains, getitem, absent_or in *.
  destruct (lookup "value" e) as [v|] eqn:Hv; [|eexists; reflexivity].
  apply object_with_inv in He as (vd & -> & Hvd).
  unfold rbind at 2 3 4.
  destruct (lookup update_key vd) as [u|] eqn:Hu; [|eexists; reflexivity].
  apply object_with_inv in Hvd as (ud & -> & Hud).
  fold (absent_or (object_with (absent_or is_dict "text")) "commentary" ud) in Hud.
  apply (absent_or_get _ _ _ (VDict [])) in Hud; [|reflexivity].
  apply object_with_inv in Hud as (c & Hc' & Hc).
  apply (absent_or_get _ _ _ (VDict [])) in Hc; [|reflexivity].
  apply is_dict_inv in Hc as (t & Ht).
  unfold get, rbind. rewrite Hc', Ht. eexists; reflexivity.
Qed.

(** ** The catalog *)

(** C1, as the spec states it, does not hold: the catalog does not have
    five entries. *)
Lemma catalog_is_not_five : List.length list_tools <> 5%nat.
Proof. simpl. discriminate. Qed.

(** C1 (amended): [list_tools] is a fixed, ordered catalog of exactly six
    entries, named get_my_profile, get_profile_by_url, search_profiles,
    search_jobs, get_my_connections and get_feed in this order; the names
    are distinct, every entry has a name, a description and an object as
    input schema, and every declared parameter has type string or number. *)
Theorem catalog_six_tools :
  tool_names = ["get_my_profile"; "get_profile_by_url"; "search_profiles";
                "search_jobs"; "get_my_connections"; "get_feed"]
  /\ List.length list_tools = 6%nat
  /\ NoDup tool_names
  /\ forallb (fun t => nonempty (name t) && nonempty (description t)
                       && is_dict (inputSchema t)
                       && forallb string_or_number (parameter_types t))
       list_tools = true.
Proof.
  split; [reflexivity|]. split; [reflexivity|]. split; [|reflexivity].
  unfold tool_names. simpl.
  repeat (constructor; [simpl; intuition discriminate|]). constructor.
Qed.

(** ** The dispatcher: [call_tool] *)

(** [call_tool] returns on every path: no exception leaves it. *)
Lemma call_tool_returns upstream str_exn tool arguments w :
  exists out, fst (call_tool upstream str_exn tool arguments w) = Ok out.
Proof.
  unfold call_tool. destruct (cookie_unset (li_at_cookie w)).
  - eexists; reflexivity.
  - destruct (dispatch upstream tool arguments w) as [[r|e] w']; eexists; reflexivity.
Qed.

(** C2: when the session cookie is not set, [call_tool] answers every tool
    name and every argument mapping with the missing-cookie error message
    and leaves the world as it was: no request is sent and no client is
    created. *)
Theorem missing_cookie_no_request upstream str_exn tool arguments w :
  cookie_unset (li_at_cookie w) = true ->
  call_tool upstream str_exn tool arguments w
    = (Ok [text_content missing_cookie_message], w)
  /\ sent (snd (call_tool upstream str_exn tool arguments w)) = sent w
  /\ is_error_message missing_cookie_message = true.
Proof.
  intros H. unfold call_tool. rewrite H. repeat split.
Qed.

Lemma missing_cookie_no_request_witness :
  call_tool (fun _ _ => Ok (VDict [])) (fun _ => "") "get_feed" []
    {| li_at_cookie := None; session := None; sent := [] |}
  = (Ok [text_content missing_cookie_message],
     {| li_at_cookie := None; session := None; sent := [] |}).
Proof.
  apply (missing_cookie_no_request (fun _ _ => Ok (VDict [])) (fun _ => "")
           "get_feed" [] {| li_at_cookie := None; session := None; sent := [] |}).
  reflexivity.
Defined.

Lemma not_in_catalog tool :
  ~ In tool tool_names ->
  String.eqb tool "get_my_profile" = false
  /\ String.eqb tool "get_profile_by_url" = false
  /\ String.eqb tool "search_profiles" = false
  /\ String.eqb tool "search_jobs" = false
  /\ String.eqb tool "get_my_connections" = false
  /\ String.eqb tool "get_feed" = false.
Proof.
  intros H. unfold tool_names in H. simpl in H.
  repeat split; apply String.eqb_neq; intros ->; apply H; tauto.
Qed.

Lemma json_str_not_error s : is_error_message (json_str s) = false.
Proof. reflexivity. Qed.

(** C3, as the spec states it, does not hold: with the cookie set, the
    answer to a tool name outside the catalog does not begin with
    ["Error: "]. *)
Lemma unknown_tool_not_error_message :
  fst (call_tool (fun _ _ => Ok (VDict [])) (fun _ => "") "delete_account" []
         {| li_at_cookie := Some "AQEDAT"; session := None; sent := [] |})
  = Ok [text_content (String dquote "Unknown tool: delete_account" ++ String dquote "")]
  /\ is_error_message (String dquote "Unknown tool: delete_account" ++ String dquote "")
     = false.
Proof. split; reflexivity. Qed.

(** C3 (amended): with the session cookie set, a tool name outside the
    catalog is answered by a single text message, the JSON string
    ["Unknown tool: <name>"]; it begins with a double quote, not with
    ["Error: "], and the world is left as it was.  An exception raised while
    a tool runs is answered by a single text message that begins with
    ["Error: "]. *)
Theorem unknown_tool_message upstream str_exn tool arguments w :
  cookie_unset (li_at_cookie w) = false ->
  (~ In tool tool_names ->
     call_tool upstream str_exn tool arguments w
       = (Ok [text_content (json_str ("Unknown tool: " ++ tool))], w)
     /\ is_error_message (json_str ("Unknown tool: " ++ tool)) = false)
  /\ (forall e w',
        dispatch upstream tool arguments w = (Raise e, w') ->
        call_tool upstream str_exn tool arguments w
          = (Ok [text_content ("Error: " ++ str_exn e ++ cookie_hint)], w')
        /\ is_error_message ("Error: " ++ str_exn e ++ cookie_hint) = true).
Proof.
  intros Hc. split.
  - intros Hn. apply not_in_catalog in Hn as (H1 & H2 & H3 & H4 & H5 & H6).
    unfold call_tool, dispatch. rewrite Hc, H1, H2, H3, H4, H5, H6.
    split; reflexivity.
  - intros e w' He. unfold call_tool. rewrite Hc, He. split; reflexivity.
Qed.

Lemma unknown_tool_message_witness :
  call_tool (fun _ _ => Ok (VDict [])) (fun _ => "") "delete_account" []
    {| li_at_cookie := Some "AQEDAT"; session := None; sent := [] |}
  = (Ok [text_content (json_str "Unknown tool: delete_account")],
     {| li_at_cookie := Some "AQEDAT"; session := None; sent := [] |}).
Proof.
  apply (unknown_tool_message (fun _ _ => Ok (VDict [])) (fun _ => "")
           "delete_account" []
           {| li_at_cookie := Some "AQEDAT"; session := None; sent := [] |}).
  - reflexivity.
  - unfold tool_names; simpl; intuition discriminate.
Defined.

(** C4: with the session cookie set, calling a tool of the catalog without
    one of the parameters its schema requires is answered by an error
    message that carries the [KeyError] of that parameter; nothing is sent
    upstream and no exception leaves [call_tool]. *)
Theorem missing_required_parameter upstream str_exn t p arguments w :
  In t list_tools ->
  In (VStr p) (required_parameters t) ->
  lookup p arguments = None ->
  cookie_unset (li_at_cookie w) = false ->
  call_tool upstream str_exn (name t) arguments w
    = (Ok [text_content ("Error: " ++ str_exn (KeyError p) ++ cookie_hint)], w)
  /\ is_error_message ("Error: " ++ str_exn (KeyError p) ++ cookie_hint) = true.
Proof.
  intros Ht Hp Ha Hc. split; [|reflexivity].
  unfold call_tool. rewrite Hc.
  simpl in Ht.
  destruct Ht as [<-|[<-|[<-|[<-|[<-|[<-|[]]]]]]]; simpl in Hp;
    try contradiction;
    destruct Hp as [Hp|[]]; injection Hp as <-;
    unfold dispatch; simpl String.eqb; cbv iota;
    unfold bind, lift, getitem; rewrite Ha; reflexivity.
Qed.

Lemma missing_required_parameter_witness :
  call_tool (fun _ _ => Ok (VDict [])) (fun _ => "") "search_jobs"
    [("location", VStr "Remote")]
    {| li_at_cookie := Some "AQEDAT"; session := None; sent := [] |}
  = (Ok [text_content ("Error: " ++ cookie_hint)],
     {| li_at_cookie := Some "AQEDAT"; session := None; sent := [] |}).
Proof.
  apply (missing_required_parameter (fun _ _ => Ok (VDict [])) (fun _ => "")
           (nth 3 list_tools (hd (Build_Tool "" "" VNone) list_tools)) "keywords"
           [("location", VStr "Remote")]
           {| li_at_cookie := Some "AQEDAT"; session := None; sent := [] |}).
  - simpl; tauto.
  - simpl; tauto.
  - reflexivity.
  - reflexivity.
Defined.

(** ** Slices and loops *)

Lemma firstn_min {A} n (l : list A) :
  firstn (Nat.min n (List.length l)) l = firstn n l.
Proof.
  destruct (Nat.le_gt_cases n (List.length l)) as [H|H].
  - rewrite Nat.min_l by exact H. reflexivity.
  - rewrite Nat.min_r by lia. rewrite firstn_all, firstn_all2 by lia. reflexivity.
Qed.

Lemma slice_stop_nonneg len n :
  0 <= n -> slice_stop len n = Nat.min (Z.to_nat n) len.
Proof.
  intros H. unfold slice_stop. destruct (n <? 0) eqn:E; [|reflexivity].
  apply Z.ltb_lt in E. lia.
Qed.

Lemma slice_list_nonneg l n :
  0 <= n -> slice_to (VList l) (VInt n) = Ok (VList (firstn (Z.to_nat n) l)).
Proof.
  intros H. unfold slice_to, slice_index, rbind.
  rewrite slice_stop_nonneg by exact H. rewrite firstn_min. reflexivity.
Qed.

Lemma forallb_firstn {A} (p : A -> bool) n l :
  forallb p l = true -> forallb p (firstn n l) = true.
Proof.
  revert n. induction l as [|x xs IH]; intros [|n] H; simpl in *; try reflexivity.
  apply andb_true_iff in H as (Hx & Hxs). rewrite Hx. simpl. apply IH, Hxs.
Qed.




Lemma rbind_ok {A B} (c : result A) (k : A -> result B) b :
  rbind c k = Ok b -> exists a, c = Ok a /\ k a = Ok b.
Proof.
  destruct c as [a|e]; simpl; [|discriminate]. intros H. exists a. auto.
Qed.

(** ** The normalizers return on shaped documents *)


Lemma parse_profile_shaped username data :
  profile_shape data = true ->
  exists pd experience education els skills,
    view_elements data "skillView" = Ok (VList els)
    /\ mapM skill_entry (firstn 10 els) = Ok skills
    /\ parse_profile username data
       = Ok [("name", full_name (dict_get pd "firstName" (VStr ""))
                                (dict_get pd "lastName" (VStr "")));
             ("headline", dict_get pd "headline" (VStr ""));
             ("summary", dict_get pd "summary" (VStr ""));
             ("location", dict_get pd "locationName" (VStr ""));
             ("industry", dict_get pd "industryName" (VStr ""));
             ("profile_url", VStr (profile_link username));
             ("experience", VList experience);
             ("education", VList education);
             ("skills", VList skills)].
Proof.
  intros H. apply object_with_inv in H as (d & -> & H).
  apply andb_true_iff in H as (H & Hskills).
  apply andb_true_iff in H as (H & Hschools).
  apply andb_true_iff in H as (Hprofile & Hpositions).
  apply (absent_or_get _ _ _ (VDict [])) in Hprofile; [|reflexivity].
  apply is_dict_inv in Hprofile as (pd & Hpd).
  apply view_elements_shaped in Hpositions as (ps & Hps & Hps').
  apply view_elements_shaped in Hschools as (ss & Hss & Hss').
  apply view_elements_shaped in Hskills as (ks & Hks & Hks').
  destruct (mapM_shaped experience_entry _ ps experience_entry_total Hps') as (ex & Hex).
  destruct (mapM_shaped education_entry _ ss education_entry_total Hss') as (ed & Hed).
  destruct (mapM_shaped skill_entry _ (firstn 10 ks) skill_entry_total
              (forallb_firstn _ 10 ks Hks')) as (sk & Hsk).
  exists pd, ex, ed, ks, sk. split; [exact Hks|]. split; [exact Hsk|].
  unfold parse_profile. cbn [get rbind]. rewrite Hpd. cbn [get rbind].
  rewrite Hps. cbn [iter rbind]. rewrite Hex. cbn [rbind].
  rewrite Hss. cbn [iter rbind]. rewrite Hed. cbn [rbind].
  rewrite Hks. cbn [rbind].
  rewrite (slice_list_nonneg ks 10) by lia. cbn [rbind iter].
  change (Z.to_nat 10) with 10%nat. rewrite Hsk. reflexivity.
Qed.

Lemma parse_me_total data :
  is_dict data = true -> exists r, parse_me data = Ok r.
Proof. intros H. apply is_dict_inv in H as (d & ->). eexists; reflexivity. Qed.

Lemma parse_search_profiles_shaped data :
  results_shape (hit_shape "*profile") data = true ->
  exists results,
    parse_search_profiles data
      = Ok [("count", count_of results); ("results", VList results)]
    /\ Forall2 (fun el r => profile_hit el = Ok r) (elements_of data) results.
Proof.
  intros H. apply results_shape_elements in H as (d & Hd & Hel & Hp).
  destruct (mapM_shaped profile_hit _ _ profile_hit_total Hp) as (rs & Hrs).
  exists rs. split; [|apply mapM_Forall2, Hrs].
  rewrite Hd at 1. unfold parse_search_profiles. cbn [get rbind].
  rewrite Hel. cbn [iter rbind]. rewrite Hrs. reflexivity.
Qed.

Lemma parse_search_jobs_shaped data :
  results_shape (hit_shape "*jobPosting") data = true ->
  exists jobs,
    parse_search_jobs data = Ok [("count", count_of jobs); ("jobs", VList jobs)]
    /\ Forall2 (fun el j => job_hit el = Ok j) (elements_of data) jobs.
Proof.
  intros H. apply results_shape_elements in H as (d & Hd & Hel & Hp).
  destruct (mapM_shaped job_hit _ _ job_hit_total Hp) as (rs & Hrs).
  exists rs. split; [|apply mapM_Forall2, Hrs].
  rewrite Hd at 1. unfold parse_search_jobs. cbn [get rbind].
  rewrite Hel. cbn [iter rbind]. rewrite Hrs. reflexivity.
Qed.

Lemma parse_connections_shaped data :
  results_shape connection_shape data = true ->
  exists connections,
    parse_connections data
      = Ok [("count", count_of connections); ("connections", VList connections)]
    /\ Forall2 (fun el c => connection_entry el = Ok c) (elements_of data) connections.
Proof.
  intros H. apply results_shape_elements in H as (d & Hd & Hel & Hp).
  destruct (mapM_shaped connection_entry _ _ connection_entry_total Hp) as (rs & Hrs).
  exists rs. split; [|apply mapM_Forall2, Hrs].
  rewrite Hd at 1. unfold parse_connections. cbn [get rbind].
  rewrite Hel. cbn [iter rbind]. rewrite Hrs. reflexivity.
Qed.

(** The feed loop looks at the first [n] elements only: the elements after
    them need no shape. *)
Lemma parse_feed_prefix d els n :
  dict_get d "elements" (VList []) = VList els ->
  0 <= n ->
  forallb post_shape (firstn (Z.to_nat n) els) = true ->
  exists posts,
    parse_feed (VInt n) (VDict d) = Ok [("count", count_of posts); ("posts", VList posts)]
    /\ Forall2 (fun el p => feed_post el = Ok p) (firstn (Z.to_nat n) els) posts.
Proof.
  intros Hel Hn Hp.
  destruct (mapM_shaped feed_post _ _ feed_post_total Hp) as (ps & Hps).
  exists ps. split; [|apply mapM_Forall2, Hps].
  unfold parse_feed. cbn [get rbind]. rewrite Hel.
  rewrite slice_list_nonneg by exact Hn. cbn [iter rbind]. rewrite Hps. reflexivity.
Qed.

(** ** What a normalizer has returned

    A result loop that returned has visited exactly the result elements: a
    string or an object in the place of the array is walked over as well,
    but its items are strings, on which these extractors raise. *)

Lemma elements_visited (f : value -> result value) data els items ys :
  (forall s, is_ok (f (VStr s)) = false) ->
  get data "elements" (VList []) = Ok els ->
  iter els = Ok items ->
  mapM f items = Ok ys ->
  items = elements_of data.
Proof.
  intros Hf Hget Hiter Hmap.
  destruct data as [| | | | | |d]; try discriminate.
  injection Hget as <-. unfold elements_of.
  destruct (dict_get d "elements" (VList [])) as [| | | |s|l|dd]; try discriminate;
    injection Hiter as <-; try reflexivity.
  - destruct s as [|c s]; [reflexivity|]. simpl in Hmap.
    specialize (Hf (String c EmptyString)).
    destruct (f (VStr (String c EmptyString))); discriminate.
  - destruct dd as [|[k v] dd]; [reflexivity|]. simpl in Hmap.
    specialize (Hf k). destruct (f (VStr k)); discriminate.
Qed.

Lemma parse_search_profiles_inv data r :
  parse_search_profiles data = Ok r ->
  exists results,
    r = [("count", count_of results); ("results", VList results)]
    /\ Forall2 (fun el x => profile_hit el = Ok x) (elements_of data) results.
Proof.
  intros H. unfold parse_search_profiles in H.
  apply rbind_ok in H as (els & Hget & H).
  apply rbind_ok in H as (items & Hiter & H).
  apply rbind_ok in H as (ys & Hmap & H). injection H as <-.
  exists ys. split; [reflexivity|].
  rewrite <- (elements_visited profile_hit data els items ys
                (fun s => eq_refl) Hget Hiter Hmap).
  apply mapM_Forall2, Hmap.
Qed.

Lemma parse_search_jobs_inv data r :
  parse_search_jobs data = Ok r ->
  exists jobs,
    r = [("count", count_of jobs); ("jobs", VList jobs)]
    /\ Forall2 (fun el x => job_hit el = Ok x) (elements_of data) jobs.
Proof.
  intros H. unfold parse_search_jobs in H.
  apply rbind_ok in H as (els & Hget & H).
  apply rbind_ok in H as (items & Hiter & H).
  apply rbind_ok in H as (ys & Hmap & H). injection H as <-.
  exists ys. split; [reflexivity|].
  rewrite <- (elements_visited job_hit data els items ys
                (fun s => eq_refl) Hget Hiter Hmap).
  apply mapM_Forall2, Hmap.
Qed.

Lemma parse_connections_inv data r :
  parse_connections data = Ok r ->
  exists connections,
    r = [("count", count_of connections); ("connections", VList connections)]
    /\ Forall2 (fun el x => connection_entry el = Ok x) (elements_of data) connections.
Proof.
  intros H. unfold parse_connections in H.
  apply rbind_ok in H as (els & Hget & H).
  apply rbind_ok in H as (items & Hiter & H).
  apply rbind_ok in H as (ys & Hmap & H). injection H as <-.
  exists ys. split; [reflexivity|].
  rewrite <- (elements_visited connection_entry data els items ys
                (fun s => eq_refl) Hget Hiter Hmap).
  apply mapM_Forall2, Hmap.
Qed.

(** In a result set of [N] elements the count is [N]. *)
Lemma counted {A} (f : A -> result value) (l : list A) records :
  Forall2 (fun el x => f el = Ok x) l records ->
  count_of records = VInt (Z.of_nat (List.length l))
  /\ List.length records = List.length l.
Proof.
  intros H. apply Forall2_length in H. unfold count_of. rewrite H. auto.
Qed.

(** C5, as the spec states it, does not hold: a JSON object whose
    ["profile"] is [null] makes the profile normalizer raise. *)
Lemma profile_null_raises :
  parse_profile "johndoe" (VDict [("profile", VNone)])
  = Raise (AttributeError "NoneType" "get").
Proof. reflexivity. Qed.

Lemma parse_feed_total data n :
  results_shape post_shape data = true ->
  exists r, parse_feed (VInt n) data = Ok r.
Proof.
  intros H. apply results_shape_elements in H as (d & Hd & Hel & Hp).
  destruct (mapM_shaped feed_post _ _ feed_post_total
              (forallb_firstn _ (slice_stop (List.length (elements_of data)) n) _ Hp))
    as (ps & Hps).
  rewrite Hd. unfold parse_feed. cbn [get rbind]. rewrite Hel.
  cbn [slice_to slice_index rbind iter]. rewrite Hps. eexists; reflexivity.
Qed.

(** C5 (amended): no normalizer raises because a key is missing, at any
    nesting depth: on a JSON object in which every key the normalizer reads
    is absent or holds a value of the kind it is used as (an object, an array
    of objects), the normalizer returns a record.  In particular a profile
    document with nothing but [firstName] gives empty strings for summary,
    location and industry and empty lists for experience, education and
    skills. *)
Theorem normalizers_tolerate_missing_keys data :
  (profile_shape data = true ->
     forall username, is_ok (parse_profile username data) = true)
  /\ (is_dict data = true -> is_ok (parse_me data) = true)
  /\ (results_shape (hit_shape "*profile") data = true ->
        is_ok (parse_search_profiles data) = true)
  /\ (results_shape (hit_shape "*jobPosting") data = true ->
        is_ok (parse_search_jobs data) = true)
  /\ (results_shape connection_shape data = true ->
        is_ok (parse_connections data) = true)
  /\ (results_shape post_shape data = true ->
        forall n, is_ok (parse_feed (VInt n) data) = true)
  /\ (forall username first,
        parse_profile username (VDict [("profile", VDict [("firstName", first)])])
        = Ok [("name", VStr (str first ++ " "));
              ("headline", VStr "");
              ("summary", VStr "");
              ("location", VStr "");
              ("industry", VStr "");
              ("profile_url", VStr (profile_link username));
              ("experience", VList []);
              ("education", VList []);
              ("skills", VList [])]).
Proof.
  repeat split.
  - intros H username.
    destruct (parse_profile_shaped username data H) as (? & ? & ? & ? & ? & _ & _ & ->).
    reflexivity.
  - intros H. destruct (parse_me_total data H) as (r & ->). reflexivity.
  - intros H. destruct (parse_search_profiles_shaped data H) as (r & -> & _). reflexivity.
  - intros H. destruct (parse_search_jobs_shaped data H) as (r & -> & _). reflexivity.
  - intros H. destruct (parse_connections_shaped data H) as (r & -> & _). reflexivity.
  - intros H n. destruct (parse_feed_total data n H) as (r & ->). reflexivity.
Qed.

Lemma normalizers_tolerate_missing_keys_witness :
  is_ok (parse_profile "johndoe"
           (VDict [("profile", VDict [("lastName", VStr "Doe")]);
                   ("positionView",
                    VDict [("elements",
                            VList [VDict [("title", VStr "Engineer");
                                          ("timePeriod",
                                           VDict [("startDate", VDict [("year", VInt 2019)])])]])]);
                   ("skillView", VDict [])])) = true.
Proof.
  apply (normalizers_tolerate_missing_keys
           (VDict [("profile", VDict [("lastName", VStr "Doe")]);
                   ("positionView",
                    VDict [("elements",
                            VList [VDict [("title", VStr "Engineer");
                                          ("timePeriod",
                                           VDict [("startDate", VDict [("year", VInt 2019)])])]])]);
                   ("skillView", VDict [])])).
  reflexivity.
Defined.

(** ** Feed *)

(** C6, as the spec states it, does not hold: a negative limit keeps all
    but the last elements, so the count exceeds the limit; and an element
    whose ["value"] is a number lacks the variant key and makes the call
    raise. *)
Lemma feed_negative_limit_exceeds :
  parse_feed (VInt (-1)) (VDict [("elements", VList [VDict []; VDict []; VDict []])])
  = Ok [("count", VInt 2); ("posts", VList [empty_post; empty_post])]
  /\ 2 > -1
  /\ parse_feed (VInt 10) (VDict [("elements", VList [VDict [("value", VInt 5)]])])
     = Raise (TypeError "argument is not iterable" "int").
Proof. repeat split. Qed.

(** C6 (amended): for a limit that is a non-negative integer [n], the feed
    normalizer handles the first [n] result elements only: when these are
    post-shaped objects (the later ones may be anything) it returns one post
    per handled element, in order, so the count is the smaller of [n] and
    the number of elements and never exceeds [n]; an element with no
    ["value"], or with a ["value"] object that has no update-rendering key,
    gives a post whose text is empty. *)
Theorem feed_at_most_limit d els n :
  dict_get d "elements" (VList []) = VList els ->
  0 <= n ->
  forallb post_shape (firstn (Z.to_nat n) els) = true ->
  exists posts,
    parse_feed (VInt n) (VDict d)
      = Ok [("count", VInt (Z.of_nat (List.length posts))); ("posts", VList posts)]
    /\ List.length posts = Nat.min (Z.to_nat n) (List.length els)
    /\ Z.of_nat (List.length posts) <= n
    /\ Forall2 (fun el p => feed_post el = Ok p
                            /\ (lacks_update el = true -> p = empty_post))
         (firstn (Z.to_nat n) els) posts.
Proof.
  intros Hel Hn Hp.
  destruct (parse_feed_prefix d els n Hel Hn Hp) as (posts & Hparse & Hall).
  exists posts. split; [exact Hparse|].
  assert (Hlen : List.length posts = Nat.min (Z.to_nat n) (List.length els)).
  { apply Forall2_length in Hall. rewrite <- Hall. apply length_firstn. }
  split; [exact Hlen|]. split; [lia|].
  eapply Forall2_impl; [|exact Hall].
  intros el p Hpost. split; [exact Hpost|].
  intros Hlacks. apply feed_post_lacks_update in Hlacks. congruence.
Qed.

Lemma feed_at_most_limit_witness :
  exists posts,
    parse_feed (VInt 2)
      (VDict [("elements",
               VList [VDict [("value", VDict [("other", VInt 1)])];
                      VDict [("value",
                              VDict [(update_key,
                                      VDict [("commentary",
                                              VDict [("text", VDict [("text", VStr "hello")])])])])];
                      VNone])])
    = Ok [("count", VInt (Z.of_nat (List.length posts))); ("posts", VList posts)]
    /\ List.length posts = 2%nat.
Proof.
  destruct (feed_at_most_limit
              [("elements",
                VList [VDict [("value", VDict [("other", VInt 1)])];
                       VDict [("value",
                               VDict [(update_key,
                                       VDict [("commentary",
                                               VDict [("text", VDict [("text", VStr "hello")])])])])];
                       VNone])]
              [VDict [("value", VDict [("other", VInt 1)])];
               VDict [("value",
                       VDict [(update_key,
                               VDict [("commentary",
                                       VDict [("text", VDict [("text", VStr "hello")])])])])];
               VNone]
              2 eq_refl ltac:(lia) eq_refl) as (posts & H1 & H2 & _).
  exists posts. split; [exact H1|exact H2].
Defined.

(** ** The records of the result sets *)

Lemma profile_hit_inv el x :
  profile_hit el = Ok x ->
  exists e info p,
    el = VDict e
    /\ dict_get e "hitInfo" (VDict []) = VDict info
    /\ dict_get info "*profile" (VDict []) = VDict p
    /\ x = VDict [("name", full_name (dict_get p "firstName" (VStr ""))
                                     (dict_get p "lastName" (VStr "")));
                  ("headline", dict_get p "headline" (VStr ""));
                  ("location", dict_get p "geoLocationName" (VStr ""));
                  ("public_id", dict_get p "publicIdentifier" (VStr ""));
                  ("profile_url",
                   VStr (profile_link (str (dict_get p "publicIdentifier" (VStr "")))))].
Proof.
  unfold profile_hit, hit. intros H.
  destruct el as [| | | | | |e]; try discriminate. cbn [get rbind] in H.
  destruct (dict_get e "hitInfo" (VDict [])) as [| | | | | |info] eqn:Hinfo;
    try discriminate. cbn [get rbind] in H.
  destruct (dict_get info "*profile" (VDict [])) as [| | | | | |p] eqn:Hp;
    try discriminate. cbn [get rbind] in H. injection H as <-.
  exists e, info, p. auto.
Qed.

Lemma connection_entry_inv el x :
  connection_entry el = Ok x ->
  exists e c,
    el = VDict e
    /\ dict_get e "connectedMember" (VDict []) = VDict c
    /\ x = VDict [("name", full_name (dict_get c "firstName" (VStr ""))
                                     (dict_get c "lastName" (VStr "")));
                  ("headline", dict_get c "headline" (VStr ""));
                  ("profile_url",
                   VStr (profile_link (str (dict_get c "publicIdentifier" (VStr "")))))].
Proof.
  unfold connection_entry. intros H.
  destruct el as [| | | | | |e]; try discriminate. cbn [get rbind] in H.
  destruct (dict_get e "connectedMember" (VDict [])) as [| | | | | |c] eqn:Hc;
    try discriminate. cbn [get rbind] in H. injection H as <-.
  exists e, c. auto.
Qed.

Lemma job_hit_inv el x :
  job_hit el = Ok x ->
  exists e info job,
    el = VDict e
    /\ dict_get e "hitInfo" (VDict []) = VDict info
    /\ dict_get info "*jobPosting" (VDict []) = VDict job
    /\ x = VDict [("title", dict_get job "title" (VStr ""));
                  ("company", dict_get job "companyName" (VStr ""));
                  ("location", dict_get job "formattedLocation" (VStr ""));
                  ("job_url",
                   VStr ("https://www.linkedin.com/jobs/view/"
                           ++ str (dict_get job "jobPostingId" (VStr ""))));
                  ("posted", dict_get job "listedAt" (VStr ""))].
Proof.
  unfold job_hit, hit. intros H.
  destruct el as [| | | | | |e]; try discriminate. cbn [get rbind] in H.
  destruct (dict_get e "hitInfo" (VDict [])) as [| | | | | |info] eqn:Hinfo;
    try discriminate. cbn [get rbind] in H.
  destruct (dict_get info "*jobPosting" (VDict [])) as [| | | | | |job] eqn:Hjob;
    try discriminate. cbn [get rbind] in H. injection H as <-.
  exists e, info, job. auto.
Qed.

Lemma mapM_related {A B} (f : A -> result B) (p : A -> bool) (R : A -> B -> Prop) l :
  (forall x, p x = true -> exists y, f x = Ok y /\ R x y) ->
  forallb p l = true ->
  exists ys, mapM f l = Ok ys /\ Forall2 R l ys.
Proof.
  intros Hf. induction l as [|x xs IH]; simpl; intros Hl.
  - exists []. split; [reflexivity|constructor].
  - apply andb_true_iff in Hl as (Hx & Hxs).
    destruct (Hf x Hx) as (y & -> & Hy). destruct (IH Hxs) as (ys & -> & Hys).
    exists (y :: ys). split; [reflexivity|constructor; assumption].
Qed.

Lemma feed_post_shaped element :
  post_shape element = true ->
  exists p, feed_post element = Ok p /\ is_post_of element p.
Proof.
  intros H. apply object_with_inv in H as (e & -> & He).
  unfold feed_post, post_text, contains, getitem, absent_or, is_post_of in *.
  destruct (lookup "value" e) as [v|] eqn:Hv.
  - apply object_with_inv in He as (vd & -> & Hvd).
    unfold rbind at 2 3 4.
    destruct (lookup update_key vd) as [u|] eqn:Hu.
    + apply object_with_inv in Hvd as (ud & -> & Hud).
      fold (absent_or (object_with (absent_or is_dict "text")) "commentary" ud) in Hud.
      apply (absent_or_get _ _ _ (VDict [])) in Hud; [|reflexivity].
      apply object_with_inv in Hud as (c & Hc' & Hc).
      apply (absent_or_get _ _ _ (VDict [])) in Hc; [|reflexivity].
      apply is_dict_inv in Hc as (t & Ht).
      unfold get, rbind. rewrite Hc', Ht.
      eexists. split; [reflexivity|].
      exists e, (dict_get t "text" (VStr "")). split; [reflexivity|].
      split; [reflexivity|]. rewrite Hv. exists vd. split; [reflexivity|].
      rewrite Hu. exists ud, c, t. auto.
    + eexists. split; [reflexivity|].
      exists e, (VStr ""). split; [reflexivity|]. split; [reflexivity|].
      rewrite Hv. exists vd. split; [reflexivity|]. rewrite Hu. reflexivity.
  - eexists. split; [reflexivity|].
    exists e, (VStr ""). split; [reflexivity|]. split; [reflexivity|].
    rewrite Hv. reflexivity.
Qed.

Lemma parse_feed_posts d els n :
  dict_get d "elements" (VList []) = VList els ->
  0 <= n ->
  forallb post_shape (firstn (Z.to_nat n) els) = true ->
  exists posts,
    parse_feed (VInt n) (VDict d) = Ok [("count", count_of posts); ("posts", VList posts)]
    /\ Forall2 is_post_of (firstn (Z.to_nat n) els) posts.
Proof.
  intros Hel Hn Hp.
  destruct (mapM_related feed_post _ is_post_of _ feed_post_shaped Hp) as (ps & Hps & Hall).
  exists ps. split; [|exact Hall].
  unfold parse_feed. cbn [get rbind]. rewrite Hel.
  rewrite slice_list_nonneg by exact Hn. cbn [iter rbind]. rewrite Hps. reflexivity.
Qed.

(** ** Job search *)

(** C7, as the spec states it, does not hold: a job-search document with
    one result element whose [hitInfo] is [null] makes the normalizer raise
    instead of returning a count. *)
Lemma job_search_null_hit_raises :
  elements_of (VDict [("elements", VList [VDict [("hitInfo", VNone)]])])
  = [VDict [("hitInfo", VNone)]]
  /\ parse_search_jobs (VDict [("elements", VList [VDict [("hitInfo", VNone)]])])
     = Raise (AttributeError "NoneType" "get").
Proof. split; reflexivity. Qed.

(** C7 (amended): on a job-search document whose [N] result elements are
    objects in which [hitInfo] and its [*jobPosting] are absent or objects,
    the normalizer returns count [N] and [N] job records in upstream order:
    the i-th record holds the title, the company name, the formatted
    location and the listing time of the job posting of the i-th element,
    each empty when missing, and a job-view URL built from its posting id.
    Whatever document the normalizer returns on, its record has this form. *)
Theorem job_search_count_and_order data :
  (results_shape (hit_shape "*jobPosting") data = true ->
     exists jobs,
       parse_search_jobs data
       = Ok [("count", VInt (Z.of_nat (List.length (elements_of data))));
             ("jobs", VList jobs)]
       /\ List.length jobs = List.length (elements_of data)
       /\ Forall2 is_job_record (elements_of data) jobs)
  /\ (forall r, parse_search_jobs data = Ok r ->
      exists jobs,
        r = [("count", VInt (Z.of_nat (List.length (elements_of data))));
             ("jobs", VList jobs)]
        /\ List.length jobs = List.length (elements_of data)
        /\ Forall2 is_job_record (elements_of data) jobs).
Proof.
  assert (Hinv : forall r, parse_search_jobs data = Ok r ->
            exists jobs,
              r = [("count", VInt (Z.of_nat (List.length (elements_of data))));
                   ("jobs", VList jobs)]
              /\ List.length jobs = List.length (elements_of data)
              /\ Forall2 is_job_record (elements_of data) jobs).
  { intros r H. apply parse_search_jobs_inv in H as (jobs & -> & Hall).
    exists jobs. destruct (counted _ _ _ Hall) as (-> & Hlen).
    split; [reflexivity|]. split; [exact Hlen|].
    eapply Forall2_impl; [|exact Hall]. intros el x. apply job_hit_inv. }
  split; [|exact Hinv].
  intros H. destruct (parse_search_jobs_shaped data H) as (jobs & Hparse & _).
  destruct (Hinv _ Hparse) as (jobs' & Hr & Hlen & Hall).
  exists jobs'. rewrite Hparse, Hr. auto.
Qed.

Lemma job_search_count_and_order_witness :
  exists jobs,
    parse_search_jobs
      (VDict [("elements",
               VList [VDict [("hitInfo",
                              VDict [("*jobPosting",
                                      VDict [("title", VStr "Engineer");
                                             ("jobPostingId", VInt 42)])])];
                      VDict []])])
    = Ok [("count", VInt 2); ("jobs", VList jobs)]
    /\ List.length jobs = 2%nat.
Proof.
  destruct (proj1 (job_search_count_and_order
              (VDict [("elements",
                       VList [VDict [("hitInfo",
                                      VDict [("*jobPosting",
                                              VDict [("title", VStr "Engineer");
                                                     ("jobPostingId", VInt 42)])])];
                              VDict []])])) eq_refl) as (jobs & H1 & H2 & _).
  exists jobs. split; [exact H1|exact H2].
Defined.

Example job_search_two_hits :
  parse_search_jobs
    (VDict [("elements",
             VList [VDict [("hitInfo",
                            VDict [("*jobPosting",
                                    VDict [("title", VStr "Engineer");
                                           ("jobPostingId", VInt 42)])])];
                    VDict []])])
  = Ok [("count", VInt 2);
        ("jobs",
         VList [VDict [("title", VStr "Engineer"); ("company", VStr "");
                       ("location", VStr "");
                       ("job_url", VStr "https://www.linkedin.com/jobs/view/42");
                       ("posted", VStr "")];
                VDict [("title", VStr ""); ("company", VStr "");
                       ("location", VStr "");
                       ("job_url", VStr "https://www.linkedin.com/jobs/view/");
                       ("posted", VStr "")]])].
Proof. reflexivity. Qed.

(** ** Profile lookup by URL *)

(** The username test looks at the last path segment, so the argument comes
    back whole unless that segment itself contains ["linkedin.com"]. *)
Lemma extract_username_cases profile_url :
  extract_username profile_url = profile_url
  \/ str_contains "linkedin.com" (extract_username profile_url) = true.
Proof.
  unfold extract_username.
  destruct (str_contains "linkedin.com"
              (hd "" (split "?" (last (split "/" profile_url) "")))) eqn:E; simpl.
  - right. exact E.
  - left. reflexivity.
Qed.

Example bare_username_is_canonical :
  fst (get_profile_by_url (fun _ _ => Ok (VDict [])) (VStr "johndoe")
         {| li_at_cookie := Some "AQEDAT"; session := None; sent := [] |})
  = Ok [("name", VStr " "); ("headline", VStr ""); ("summary", VStr "");
        ("location", VStr ""); ("industry", VStr "");
        ("profile_url", VStr "https://www.linkedin.com/in/johndoe");
        ("experience", VList []); ("education", VList []); ("skills", VList [])].
Proof. reflexivity. Qed.

(** C8 fails on the code: for a full profile URL the username extracted
    from the last path segment is thrown away again, the whole URL is used as
    public identifier, both in the upstream request and in the [profile_url]
    of the record. *)
Theorem full_url_is_not_reduced_to_username :
  extract_username "https://www.linkedin.com/in/johndoe"
  = "https://www.linkedin.com/in/johndoe"
  /\ (let run := get_profile_by_url (fun _ _ => Ok (VDict []))
                   (VStr "https://www.linkedin.com/in/johndoe")
                   {| li_at_cookie := Some "AQEDAT"; session := None; sent := [] |} in
      fst run
      = Ok [("name", VStr " "); ("headline", VStr ""); ("summary", VStr "");
            ("location", VStr ""); ("industry", VStr "");
            ("profile_url",
             VStr "https://www.linkedin.com/in/https://www.linkedin.com/in/johndoe");
            ("experience", VList []); ("education", VList []); ("skills", VList [])]
      /\ map url (sent (snd run))
         = ["https://www.linkedin.com/voyager/api/identity/profiles/https://www.linkedin.com/in/johndoe/profileView"]).
Proof. repeat split. Qed.

(** ** Skills *)



Example twelve_skills_give_ten :
  let skill n := VDict [("name", VInt n)] in
  option_map (fun r => lookup "skills" r)
    (match parse_profile "johndoe"
             (VDict [("skillView",
                      VDict [("elements",
                              VList (map skill [1; 2; 3; 4; 5; 6; 7; 8; 9; 10; 11; 12]))])])
     with Ok r => Some r | Raise _ => None end)
  = Some (Some (VList (map VInt [1; 2; 3; 4; 5; 6; 7; 8; 9; 10]))).
Proof. reflexivity. Qed.

(** ** The limit argument of the other methods *)

Section Methods.

Variable upstream : list request -> request -> result value.

(** Each method creates or reuses the client, sends one request that
    carries the limit as [count], and normalizes the answer. *)

Lemma normalized_answer {A B} (answer : result A) (parse : A -> result B) (w : world) :
  match answer with
  | Ok data => (parse data, w)
  | Raise e => (Raise e, w)
  end = (rbind answer parse, w).
Proof. destruct answer; reflexivity. Qed.

Lemma search_profiles_run query limit w :
  exists rq,
    forwarded_count rq = Some limit
    /\ search_profiles upstream query limit w
       = (rbind (upstream (sent w) rq) parse_search_profiles, after w rq).
Proof.
  unfold search_profiles, bind, get_http_client, fetch, lift, after.
  destruct (session w) as [c|] eqn:E; simpl; rewrite ?E;
    (eexists; split; [|rewrite normalized_answer; apply f_equal2; reflexivity]); reflexivity.
Qed.

Lemma search_jobs_run keywords location limit w :
  exists rq,
    forwarded_count rq = Some limit
    /\ search_jobs upstream keywords location limit w
       = (rbind (upstream (sent w) rq) parse_search_jobs, after w rq).
Proof.
  unfold search_jobs, bind, get_http_client, fetch, lift, after.
  destruct (session w) as [c|] eqn:E; simpl; rewrite ?E;
    (eexists; split; [|rewrite normalized_answer; apply f_equal2; reflexivity]);
    unfold forwarded_count; simpl; destruct (truthy location); reflexivity.
Qed.

Lemma get_my_connections_run limit w :
  exists rq,
    forwarded_count rq = Some limit
    /\ get_my_connections upstream limit w
       = (rbind (upstream (sent w) rq) parse_connections, after w rq).
Proof.
  unfold get_my_connections, bind, get_http_client, fetch, lift, after.
  destruct (session w) as [c|] eqn:E; simpl; rewrite ?E;
    (eexists; split; [|rewrite normalized_answer; apply f_equal2; reflexivity]); reflexivity.
Qed.

Lemma get_feed_run limit w :
  exists rq,
    forwarded_count rq = Some limit
    /\ get_feed upstream limit w
       = (rbind (upstream (sent w) rq) (parse_feed limit), after w rq).
Proof.
  unfold get_feed, bind, get_http_client, fetch, lift, after.
  destruct (session w) as [c|] eqn:E; simpl; rewrite ?E;
    (eexists; split; [|rewrite normalized_answer; apply f_equal2; reflexivity]); reflexivity.
Qed.

End Methods.

(** C10, as the spec states it, does not hold: on a document whose two
    result elements are [null], none of the three normalizers returns a
    count or a record; each raises. *)
Lemma null_elements_raise :
  let data := VDict [("elements", VList [VNone; VNone])] in
  List.length (elements_of data) = 2%nat
  /\ parse_search_profiles data = Raise (AttributeError "NoneType" "get")
  /\ parse_search_jobs data = Raise (AttributeError "NoneType" "get")
  /\ parse_connections data = Raise (AttributeError "NoneType" "get").
Proof. repeat split. Qed.

(** C10 (amended): let the upstream service answer with a document of [N]
    result elements.  People search, job search and connections send the
    limit upstream as the [count] parameter of their one request and do
    nothing else with it: for every limit, when the elements are objects of
    the kind the method reads, they return count [N] and all [N] records,
    the i-th being the record of the i-th element, and whatever they return
    has this form.  The feed alone cuts the answer: for a non-negative
    integer limit [n] and post-shaped elements it returns the posts of the
    first [n] elements, and its count is the smaller of [n] and [N]. *)
Theorem limit_only_forwarded upstream data w query keywords location limit :
  (forall history rq, upstream history rq = Ok data) ->
  let els := elements_of data in
  let N := Z.of_nat (List.length els) in
  let all_of key (record : value -> value -> Prop) (shaped : bool)
             (run : result dict * world) :=
    (shaped = true -> is_ok (fst run) = true)
    /\ (forall r, fst run = Ok r ->
        exists records,
          r = [("count", VInt N); (key, VList records)]
          /\ List.length records = List.length els
          /\ Forall2 record els records)
    /\ (exists rq, snd run = after w rq /\ forwarded_count rq = Some limit) in
  all_of "results" is_person_record (results_shape (hit_shape "*profile") data)
    (search_profiles upstream query limit w)
  /\ all_of "jobs" is_job_record (results_shape (hit_shape "*jobPosting") data)
       (search_jobs upstream keywords location limit w)
  /\ all_of "connections" is_connection_record (results_shape connection_shape data)
       (get_my_connections upstream limit w)
  /\ (results_shape post_shape data = true ->
      forall n, 0 <= n ->
      exists posts rq,
        get_feed upstream (VInt n) w
        = (Ok [("count", VInt (Z.min n N)); ("posts", VList posts)], after w rq)
        /\ List.length posts = Nat.min (Z.to_nat n) (List.length els)
        /\ Forall2 is_post_of (firstn (Z.to_nat n) els) posts
        /\ forwarded_count rq = Some (VInt n)).
Proof.
  intros Hup els N all_of. subst all_of. cbv beta.
  destruct (search_profiles_run upstream query limit w) as (rq1 & Hc1 & ->).
  destruct (search_jobs_run upstream keywords location limit w) as (rq2 & Hc2 & ->).
  destruct (get_my_connections_run upstream limit w) as (rq3 & Hc3 & ->).
  rewrite !Hup. cbn [rbind fst snd].
  split; [|split; [|split]].
  - split; [|split].
    + intros H. destruct (parse_search_profiles_shaped data H) as (rs & -> & _).
      reflexivity.
    + intros r H. apply parse_search_profiles_inv in H as (rs & -> & Hall).
      exists rs. destruct (counted _ _ _ Hall) as (-> & Hlen).
      split; [reflexivity|]. split; [exact Hlen|].
      eapply Forall2_impl; [|exact Hall]. intros el x. apply profile_hit_inv.
    + exists rq1. auto.
  - split; [|split].
    + intros H. destruct (parse_search_jobs_shaped data H) as (rs & -> & _).
      reflexivity.
    + intros r H. apply parse_search_jobs_inv in H as (rs & -> & Hall).
      exists rs. destruct (counted _ _ _ Hall) as (-> & Hlen).
      split; [reflexivity|]. split; [exact Hlen|].
      eapply Forall2_impl; [|exact Hall]. intros el x. apply job_hit_inv.
    + exists rq2. auto.
  - split; [|split].
    + intros H. destruct (parse_connections_shaped data H) as (rs & -> & _).
      reflexivity.
    + intros r H. apply parse_connections_inv in H as (rs & -> & Hall).
      exists rs. destruct (counted _ _ _ Hall) as (-> & Hlen).
      split; [reflexivity|]. split; [exact Hlen|].
      eapply Forall2_impl; [|exact Hall]. intros el x. apply connection_entry_inv.
    + exists rq3. auto.
  - intros H n Hn.
    apply results_shape_elements in H as (d & Hd & Hel & Hp).
    destruct (parse_feed_posts d els n Hel Hn (forallb_firstn _ _ _ Hp))
      as (ps & Hparse & Hall).
    destruct (get_feed_run upstream (VInt n) w) as (rq & Hcount & ->).
    pose proof (Forall2_length Hall) as Hlen. rewrite length_firstn in Hlen.
    exists ps, rq. rewrite Hup. cbn [rbind]. rewrite Hd at 1. rewrite Hparse.
    unfold count_of. rewrite <- Hlen.
    replace (Z.of_nat (Nat.min (Z.to_nat n) (List.length els)))
      with (Z.min n N) by (subst N; lia).
    auto.
Qed.

Lemma limit_only_forwarded_witness :
  exists rq,
    snd (search_profiles
           (fun _ _ => Ok (VDict [("elements", VList [VDict []; VDict []; VDict []])]))
           (VStr "rocq") (VInt 1)
           {| li_at_cookie := Some "AQEDAT"; session := None; sent := [] |})
    = after {| li_at_cookie := Some "AQEDAT"; session := None; sent := [] |} rq
    /\ forwarded_count rq = Some (VInt 1).
Proof.
  destruct (limit_only_forwarded
              (fun _ _ => Ok (VDict [("elements", VList [VDict []; VDict []; VDict []])]))
              (VDict [("elements", VList [VDict []; VDict []; VDict []])])
              {| li_at_cookie := Some "AQEDAT"; session := None; sent := [] |}
              (VStr "rocq") (VStr "engineer") (VStr "") (VInt 1)
              (fun _ _ => eq_refl)) as ((_ & _ & H) & _).
  exact H.
Defined.

Example people_search_ignores_limit :
  fst (search_profiles
         (fun _ _ => Ok (VDict [("elements", VList [VDict []; VDict []; VDict []])]))
         (VStr "rocq") (VInt 1)
         {| li_at_cookie := Some "AQEDAT"; session := None; sent := [] |})
  = (let nobody := VDict [("name", VStr " "); ("headline", VStr "");
                          ("location", VStr ""); ("public_id", VStr "");
                          ("profile_url", VStr "https://www.linkedin.com/in/")] in
     Ok [("count", VInt 3); ("results", VList [nobody; nobody; nobody])]).
Proof. reflexivity. Qed.

(** * Further properties of the server *)

(** ** The shared client: [get_http_client] *)

Lemma get_http_client_opened w :
  get_http_client w = (Ok (the_client w), opened w).
Proof. destruct w as [ck [c|] s]; reflexivity. Qed.

Lemma the_client_opened w : the_client (opened w) = the_client w.
Proof. reflexivity. Qed.

Lemma opened_opened w : opened (opened w) = opened w.
Proof. reflexivity. Qed.

(** X1: [get_http_client] creates the client on the first call only.  The
    client it returns becomes the session; without a session it is a new
    client whose [li_at] cookie is the cookie of the server, with the 30
    second timeout and redirects followed; with a session it is that
    session and the world stays as it is.  Calling again returns the same
    client and changes nothing.  No call sends a request. *)
Theorem client_created_once w :
  exists c w',
    get_http_client w = (Ok c, w')
    /\ session w' = Some c
    /\ sent w' = sent w
    /\ li_at_cookie w' = li_at_cookie w
    /\ get_http_client w' = (Ok c, w')
    /\ (forall c0, session w = Some c0 -> c = c0 /\ w' = w)
    /\ (session w = None ->
        cookies c = [("li_at", li_at_cookie w)]
        /\ timeout c = VFloat "30.0"
        /\ follow_redirects c = true
        /\ map fst (headers c)
           = ["User-Agent"; "Accept"; "Accept-Language"; "csrf-token"]).
Proof.
  exists (the_client w), (opened w).
  rewrite !get_http_client_opened, the_client_opened, opened_opened.
  split; [reflexivity|]. split; [reflexivity|]. split; [reflexivity|].
  split; [reflexivity|]. split; [reflexivity|]. split.
  - intros c0 H. unfold the_client. rewrite H. split; [reflexivity|].
    destruct w as [ck ss s]. simpl in H. subst ss. reflexivity.
  - intros H. unfold the_client. rewrite H. repeat split.
Qed.

(** ** What each method sends and returns *)

Lemma bind_lift {A B} (r : result A) (k : A -> M B) w :
  bind (lift r) k w = match r with Ok a => k a w | Raise e => (Raise e, w) end.
Proof. destruct r; reflexivity. Qed.

Lemma bind_ret_world {A B} (m : M A) (f : A -> B) w :
  bind m (fun a => ret (f a)) w
  = (match fst (m w) with Ok a => Ok (f a) | Raise e => Raise e end, snd (m w)).
Proof. unfold bind, ret. destruct (m w) as [[a|e] w']; reflexivity. Qed.

Lemma after_opened w rq : after (opened w) rq = after w rq.
Proof. reflexivity. Qed.

Section Equations.

Variable upstream : list request -> request -> result value.

Lemma get_profile_by_url_eq profile_url w :
  get_profile_by_url upstream profile_url w
  = match profile_url with
    | VStr s =>
        let rq := {| client := the_client w;
                     url := profile_view_url (extract_username s);
                     params := None |} in
        (rbind (upstream (sent w) rq) (parse_profile (extract_username s)), after w rq)
    | _ => (Raise (AttributeError (type_name profile_url) "split"), opened w)
    end.
Proof.
  unfold get_profile_by_url, bind. rewrite get_http_client_opened.
  destruct profile_url; try reflexivity.
  unfold lift, fetch. cbn [sent opened li_at_cookie session].
  rewrite normalized_answer. reflexivity.
Qed.

Lemma search_profiles_eq query limit w :
  let rq := {| client := the_client w;
               url := "https://www.linkedin.com/voyager/api/search/blended";
               params := Some [("keywords", query);
                               ("filters", VStr "List(resultType->PEOPLE)");
                               ("queryContext", VStr "List(spellCorrectionEnabled->true)");
                               ("count", limit)] |} in
  search_profiles upstream query limit w
  = (rbind (upstream (sent w) rq) parse_search_profiles, after w rq).
Proof.
  unfold search_profiles, bind. rewrite get_http_client_opened.
  unfold lift, fetch. cbn [sent opened li_at_cookie session].
  rewrite normalized_answer. reflexivity.
Qed.

Lemma search_jobs_eq keywords location limit w :
  let rq := {| client := the_client w;
               url := "https://www.linkedin.com/voyager/api/search/blended";
               params :=
                 Some (if truthy location then
                         [("keywords", keywords); ("count", limit);
                          ("location", location);
                          ("filters", VStr "List(resultType->JOBS)");
                          ("queryContext", VStr "List(spellCorrectionEnabled->true)")]
                       else
                         [("keywords", keywords); ("count", limit);
                          ("filters", VStr "List(resultType->JOBS)");
                          ("queryContext", VStr "List(spellCorrectionEnabled->true)")]) |} in
  search_jobs upstream keywords location limit w
  = (rbind (upstream (sent w) rq) parse_search_jobs, after w rq).
Proof.
  unfold search_jobs, bind. rewrite get_http_client_opened.
  unfold lift, fetch. cbn [sent opened li_at_cookie session].
  rewrite normalized_answer. destruct (truthy location); reflexivity.
Qed.

Lemma get_my_connections_eq limit w :
  let rq := {| client := the_client w;
               url := "https://www.linkedin.com/voyager/api/relationships/connections";
               params := Some [("count", limit)] |} in
  get_my_connections upstream limit w
  = (rbind (upstream (sent w) rq) parse_connections, after w rq).
Proof.
  unfold get_my_connections, bind. rewrite get_http_client_opened.
  unfold lift, fetch. cbn [sent opened li_at_cookie session].
  rewrite normalized_answer. reflexivity.
Qed.

Lemma get_feed_eq limit w :
  let rq := {| client := the_client w;
               url := "https://www.linkedin.com/voyager/api/feed/updates";
               params := Some [("count", limit)] |} in
  get_feed upstream limit w
  = (rbind (upstream (sent w) rq) (parse_feed limit), after w rq).
Proof.
  unfold get_feed, bind. rewrite get_http_client_opened.
  unfold lift, fetch. cbn [sent opened li_at_cookie session].
  rewrite normalized_answer. reflexivity.
Qed.

Lemma get_my_profile_eq w :
  let rq := {| client := the_client w; url := me_url; params := None |} in
  get_my_profile upstream w
  = match rbind (upstream (sent w) rq) parse_me with
    | Raise e => (Raise e, after w rq)
    | Ok (profile, username) =>
        if truthy username then
          match get_profile_by_url upstream username (after w rq) with
          | (Ok detailed, w') => (Ok (update profile detailed), w')
          | (Raise e, w') => (Raise e, w')
          end
        else (Ok profile, after w rq)
    end.
Proof.
  unfold get_my_profile, bind. rewrite get_http_client_opened.
  unfold lift, fetch, ret. cbn [sent opened li_at_cookie session].
  fold me_url.
  destruct (upstream (sent w) {| client := the_client w; url := me_url; params := None |})
    as [data|e]; [|reflexivity].
  cbn [rbind]. destruct (parse_me data) as [[profile username]|e]; [|reflexivity].
  destruct (truthy username); reflexivity.
Qed.

End Equations.

(** ** What a call does to the world *)

Lemma grows_refl n w : grows n w w.
Proof.
  split; [reflexivity|]. split; [left; reflexivity|].
  exists []. rewrite app_nil_r. repeat split; [simpl; lia|constructor].
Qed.

Lemma grows_opened n w : grows n w (opened w).
Proof.
  split; [reflexivity|]. split; [right; reflexivity|].
  exists []. simpl. rewrite app_nil_r. repeat split; [lia|constructor].
Qed.

Lemma grows_after n w rq :
  client rq = the_client w -> grows (S n) w (after w rq).
Proof.
  intros H. split; [reflexivity|]. split; [right; simpl; rewrite H; reflexivity|].
  exists [rq]. simpl. repeat split; [lia|]. constructor; [exact H|constructor].
Qed.

Lemma the_client_after w rq :
  client rq = the_client w -> the_client (after w rq) = the_client w.
Proof. intros H. unfold the_client at 1. simpl. exact H. Qed.

Lemma grows_after_then n w rq w' :
  client rq = the_client w ->
  grows n (after w rq) w' -> grows (S n) w w'.
Proof.
  intros H (Hc & Hs & new & Hsent & Hlen & Hall).
  rewrite (the_client_after w rq H) in *.
  split; [exact Hc|]. split.
  - right. destruct Hs as [->|Hs]; [simpl; rewrite H; reflexivity|exact Hs].
  - exists (rq :: new). simpl in Hsent. rewrite Hsent, <- app_assoc. simpl.
    repeat split; [lia|]. constructor; assumption.
Qed.

Lemma grows_weaken n m w w' : (n <= m)%nat -> grows n w w' -> grows m w w'.
Proof.
  intros Hnm (Hc & Hs & new & Hsent & Hlen & Hall).
  split; [exact Hc|]. split; [exact Hs|]. exists new. repeat split; try assumption. lia.
Qed.

Section Steps.

Variable upstream : list request -> request -> result value.
Variable str_exn : exn -> string.

Lemma get_profile_by_url_grows profile_url w :
  grows 1 w (snd (get_profile_by_url upstream profile_url w)).
Proof.
  rewrite get_profile_by_url_eq.
  destruct profile_url; try apply grows_opened.
  apply grows_after. reflexivity.
Qed.

Lemma get_my_profile_grows w :
  grows 2 w (snd (get_my_profile upstream w)).
Proof.
  rewrite get_my_profile_eq. cbv zeta.
  set (rq := {| client := the_client w; url := me_url; params := None |}).
  assert (H1 : grows 2 w (after w rq)) by (apply grows_after; reflexivity).
  destruct (rbind (upstream (sent w) rq) parse_me) as [[profile username]|e];
    [|exact H1].
  destruct (truthy username); [|exact H1].
  pose proof (get_profile_by_url_grows username (after w rq)) as H2.
  apply (grows_after_then 1 w rq) in H2; [|reflexivity].
  destruct (get_profile_by_url upstream username (after w rq)) as [[d|e] w'];
    exact H2.
Qed.

Lemma dispatch_grows tool arguments w :
  grows 2 w (snd (dispatch upstream tool arguments w)).
Proof.
  unfold dispatch.
  repeat match goal with
         | |- context [if String.eqb tool ?s then _ else _] =>
             destruct (String.eqb tool s)
         end;
    try rewrite bind_lift;
    try match goal with
        | |- context [getitem ?d ?k] => destruct (getitem d k); [|apply grows_refl]
        end;
    try rewrite bind_ret_world; cbn [snd].
  - apply get_my_profile_grows.
  - apply (grows_weaken 1); [lia|]. apply get_profile_by_url_grows.
  - rewrite search_profiles_eq. apply grows_after. reflexivity.
  - rewrite search_jobs_eq. apply grows_after. reflexivity.
  - rewrite get_my_connections_eq. apply grows_after. reflexivity.
  - rewrite get_feed_eq. apply grows_after. reflexivity.
  - apply grows_refl.
Qed.

(** The result of the [try] block is a record or the unknown-tool text. *)
Lemma dispatch_result tool arguments w r :
  fst (dispatch upstream tool arguments w) = Ok r ->
  (exists d, r = VDict d) \/ (exists s, r = VStr s).
Proof.
  unfold dispatch.
  repeat match goal with
         | |- context [if String.eqb tool ?s then _ else _] =>
             destruct (String.eqb tool s)
         end;
    try rewrite bind_lift;
    try match goal with
        | |- context [getitem ?d ?k] => destruct (getitem d k); [|discriminate]
        end;
    try rewrite bind_ret_world; cbn [fst];
    try match goal with
        | |- match ?x with _ => _ end = _ -> _ =>
            destruct x; [|discriminate]
        end;
    intros H; injection H as <-; eauto.
Qed.

End Steps.

Lemma call_tool_grows upstream str_exn tool arguments w :
  grows 2 w (snd (call_tool upstream str_exn tool arguments w)).
Proof.
  unfold call_tool. destruct (cookie_unset (li_at_cookie w)); [apply grows_refl|].
  pose proof (dispatch_grows upstream tool arguments w) as H.
  destruct (dispatch upstream tool arguments w) as [[r|e] w']; exact H.
Qed.

(** X2: whatever the tool name, the arguments and the answers of the
    upstream service, one call of [call_tool] sends at most two requests,
    all through the client that is the session after the call; it never
    changes the cookie and never replaces a session that exists. *)
Theorem call_sends_at_most_two upstream str_exn tool arguments w :
  let w' := snd (call_tool upstream str_exn tool arguments w) in
  li_at_cookie w' = li_at_cookie w
  /\ (forall c, session w = Some c -> session w' = Some c)
  /\ exists new,
       sent w' = (sent w ++ new)%list
       /\ (List.length new <= 2)%nat
       /\ Forall (fun rq => session w' = Some (client rq)) new.
Proof.
  cbv zeta.
  destruct (call_tool_grows upstream str_exn tool arguments w)
    as (Hc & Hs & new & Hsent & Hlen & Hall).
  split; [exact Hc|]. split.
  - intros c Hsession. destruct Hs as [->|Hs]; [exact Hsession|].
    rewrite Hs. unfold the_client. rewrite Hsession. reflexivity.
  - exists new. split; [exact Hsent|]. split; [exact Hlen|].
    destruct Hs as [Hw|Hs].
    + rewrite Hw in Hsent.
      assert (new = []) as ->; [|constructor].
      apply (f_equal (@List.length request)) in Hsent.
      rewrite length_app in Hsent. destruct new; [reflexivity|simpl in Hsent; lia].
    + eapply Forall_impl; [|exact Hall]. intros rq ->. exact Hs.
Qed.

Lemma json_dumps_not_error r :
  (exists d, r = VDict d) \/ (exists s, r = VStr s) ->
  is_error_message (json_dumps r) = false.
Proof.
  intros [(d & ->)|(s & ->)]; [|reflexivity].
  destruct d as [|kv d]; reflexivity.
Qed.

(** X3: the answer of [call_tool] is always one text item, and it begins
    with ["Error: "] exactly when the cookie is not set or an exception was
    raised while the tool ran; a normalized record, and the unknown-tool
    text, never begin with it. *)
Theorem error_message_iff_failure upstream str_exn tool arguments w :
  exists t,
    fst (call_tool upstream str_exn tool arguments w) = Ok [text_content t]
    /\ (is_error_message t = true <->
        cookie_unset (li_at_cookie w) = true
        \/ exists e, fst (dispatch upstream tool arguments w) = Raise e).
Proof.
  unfold call_tool. destruct (cookie_unset (li_at_cookie w)) eqn:Hc.
  - eexists. split; [reflexivity|]. split; auto.
  - pose proof (dispatch_result upstream tool arguments w) as Hr.
    destruct (dispatch upstream tool arguments w) as [[r|e] w'].
    + eexists. split; [reflexivity|]. cbn [fst] in *.
      rewrite (json_dumps_not_error r (Hr r eq_refl)).
      split; [discriminate|]. intros [H|(e & H)]; discriminate.
    + eexists. split; [reflexivity|]. split; [|reflexivity].
      intros _. right. exists e. reflexivity.
Qed.

Lemma grows_consistent cookie n w w' :
  cookie_unset (li_at_cookie w) = false ->
  consistent cookie w -> grows n w w' -> consistent cookie w'.
Proof.
  intros Hset (Hck & Hw) (Hc & Hs & new & Hsent & _ & Hall).
  split; [congruence|].
  destruct Hs as [->|Hs]; [exact Hw|].
  rewrite Hs, Hsent. unfold the_client in *.
  destruct (session w) as [c|].
  - destruct Hw as (H1 & H2 & H3). repeat split; try assumption.
    apply Forall_app. split; assumption.
  - rewrite Hw. simpl. subst cookie. repeat split; assumption.
Qed.

(** X4: in every world a server reaches from [__init__] by calls of
    [call_tool], one after the other, the cookie is the one read at start,
    the session, when there is one, carries it as [li_at], and so does the
    client of every request sent so far; when the cookie was not set there
    is no session and nothing was sent, whatever tools were called. *)
Theorem requests_carry_startup_cookie upstream str_exn cookie w :
  reachable upstream str_exn cookie w ->
  li_at_cookie w = cookie
  /\ Forall (fun rq => cookies (client rq) = [("li_at", cookie)]) (sent w)
  /\ (forall c, session w = Some c ->
        cookies c = [("li_at", cookie)] /\ cookie_unset cookie = false)
  /\ (cookie_unset cookie = true -> session w = None /\ sent w = []).
Proof.
  intros Hr.
  assert (H : consistent cookie w).
  { induction Hr as [|tool arguments w Hw IH].
    - split; reflexivity.
    - destruct (cookie_unset (li_at_cookie w)) eqn:Hc.
      + unfold call_tool. rewrite Hc. exact IH.
      + eapply grows_consistent; [exact Hc|exact IH|].
        apply call_tool_grows. }
  destruct H as (Hck & H). split; [exact Hck|].
  destruct (session w) as [c|].
  - destruct H as (Hset & Hcookies & Hall). split; [|split].
    + eapply Forall_impl; [|exact Hall]. intros rq ->. exact Hcookies.
    + intros c0 Hc0. injection Hc0 as <-. auto.
    + rewrite Hset. discriminate.
  - rewrite H. split; [constructor|]. split; [discriminate|]. auto.
Qed.

Lemma requests_carry_startup_cookie_witness :
  Forall (fun rq => cookies (client rq) = [("li_at", Some "AQEDAT")])
    (sent (snd (call_tool (fun _ _ => Ok (VDict [])) (fun _ => "") "get_feed" []
                  (snd (call_tool (fun _ _ => Ok (VDict [])) (fun _ => "")
                          "get_my_profile" [] (init (Some "AQEDAT"))))))).
Proof.
  apply (requests_carry_startup_cookie (fun _ _ => Ok (VDict [])) (fun _ => "")
           (Some "AQEDAT")).
  apply reachable_call, reachable_call, reachable_init.
Defined.

(** ** Arguments and defaults *)

(** Picks the branch of [dispatch] for a tool name that is known. *)
Ltac pick_branch :=
  cbn [name]; unfold dispatch;
  repeat match goal with
         | |- context [String.eqb ?a ?b] =>
             let v := eval vm_compute in (String.eqb a b) in
             change (String.eqb a b) with v
         end;
  cbv iota.

Lemma call_tool_world upstream str_exn tool arguments w :
  cookie_unset (li_at_cookie w) = false ->
  snd (call_tool upstream str_exn tool arguments w)
  = snd (dispatch upstream tool arguments w).
Proof.
  intros H. unfold call_tool. rewrite H.
  destruct (dispatch upstream tool arguments w) as [[r|e] w']; reflexivity.
Qed.

Lemma getitem_present d k :
  lookup k d <> None -> exists v, getitem (VDict d) k = Ok v /\ lookup k d = Some v.
Proof.
  intros H. unfold getitem. destruct (lookup k d) as [v|]; [|contradiction].
  exists v. auto.
Qed.

(** X5: a tool whose schema declares a default for [limit] sends, when its
    required parameters are given, exactly one request, and the [count] of
    that request is the [limit] argument when there is one and the default
    declared in the catalog when there is none. *)
Theorem limit_defaults_to_schema upstream str_exn t dflt arguments w :
  In t list_tools ->
  declared_default t "limit" = Some dflt ->
  cookie_unset (li_at_cookie w) = false ->
  (forall p, In (VStr p) (required_parameters t) -> lookup p arguments <> None) ->
  exists rq,
    snd (call_tool upstream str_exn (name t) arguments w) = after w rq
    /\ client rq = the_client w
    /\ forwarded_count rq = Some (dict_get arguments "limit" dflt).
Proof.
  intros Ht Hd Hc Hreq. rewrite call_tool_world by exact Hc.
  simpl in Ht.
  destruct Ht as [<-|[<-|[<-|[<-|[<-|[<-|[]]]]]]]; try discriminate;
    injection Hd as <-; pick_branch.
  - destruct (getitem_present arguments "query") as (v & -> & _);
      [apply Hreq; simpl; tauto|].
    rewrite bind_lift, bind_ret_world, search_profiles_eq. cbn [snd].
    eexists. repeat split.
  - destruct (getitem_present arguments "keywords") as (v & -> & _);
      [apply Hreq; simpl; tauto|].
    rewrite bind_lift, bind_ret_world, search_jobs_eq. cbn [snd].
    eexists. split; [reflexivity|]. split; [reflexivity|].
    unfold forwarded_count. cbn [params].
    destruct (truthy (dict_get arguments "location" (VStr ""))); reflexivity.
  - rewrite bind_ret_world, get_my_connections_eq. cbn [snd].
    eexists. repeat split.
  - rewrite bind_ret_world, get_feed_eq. cbn [snd].
    eexists. repeat split.
Qed.

Lemma limit_defaults_to_schema_witness :
  exists rq,
    snd (call_tool (fun _ _ => Ok (VDict [])) (fun _ => "") "get_my_connections" []
           (init (Some "AQEDAT")))
    = after (init (Some "AQEDAT")) rq
    /\ client rq = the_client (init (Some "AQEDAT"))
    /\ forwarded_count rq = Some (VInt 20).
Proof.
  apply (limit_defaults_to_schema (fun _ _ => Ok (VDict [])) (fun _ => "")
           (nth 4 list_tools (Build_Tool "" "" VNone)) (VInt 20) []
           (init (Some "AQEDAT"))).
  - simpl; tauto.
  - reflexivity.
  - reflexivity.
  - simpl; tauto.
Defined.

(** X6: a job search sends its keywords and its count, and a [location]
    parameter only for a location argument that is given and not empty (or
    otherwise false); the request is marked as a search for jobs. *)
Theorem job_location_optional upstream str_exn arguments keywords w :
  cookie_unset (li_at_cookie w) = false ->
  lookup "keywords" arguments = Some keywords ->
  exists rq,
    snd (call_tool upstream str_exn "search_jobs" arguments w) = after w rq
    /\ query_param "keywords" rq = Some keywords
    /\ query_param "count" rq = Some (dict_get arguments "limit" (VInt 10))
    /\ query_param "filters" rq = Some (VStr "List(resultType->JOBS)")
    /\ query_param "location" rq
       = match lookup "location" arguments with
         | Some location => if truthy location then Some location else None
         | None => None
         end.
Proof.
  intros Hc Hk. rewrite call_tool_world by exact Hc. pick_branch.
  unfold getitem. rewrite Hk.
  rewrite bind_lift, bind_ret_world, search_jobs_eq. cbn [snd].
  eexists. split; [reflexivity|].
  unfold query_param, dict_get. cbn [params].
  destruct (lookup "location" arguments) as [location|];
    [destruct (truthy location)|]; repeat split.
Qed.

Lemma job_location_optional_witness :
  exists rq,
    snd (call_tool (fun _ _ => Ok (VDict [])) (fun _ => "") "search_jobs"
           [("keywords", VStr "engineer"); ("location", VStr "")]
           (init (Some "AQEDAT")))
    = after (init (Some "AQEDAT")) rq
    /\ query_param "location" rq = None.
Proof.
  destruct (job_location_optional (fun _ _ => Ok (VDict [])) (fun _ => "")
              [("keywords", VStr "engineer"); ("location", VStr "")]
              (VStr "engineer") (init (Some "AQEDAT")) eq_refl eq_refl)
    as (rq & H1 & _ & _ & _ & H2).
  exists rq. split; [exact H1|exact H2].
Defined.

(** ** Failures *)

(** X7: when the upstream service fails, every tool of the catalog, called
    with its required parameters as strings, answers with the error message
    of that failure after exactly one request: nothing is retried, and the
    own-profile lookup does not go on to its second request. *)
Theorem upstream_failure_reported upstream str_exn t arguments w e :
  In t list_tools ->
  cookie_unset (li_at_cookie w) = false ->
  (forall p, In (VStr p) (required_parameters t) ->
             exists s, lookup p arguments = Some (VStr s)) ->
  (forall history rq, upstream history rq = Raise e) ->
  exists rq,
    call_tool upstream str_exn (name t) arguments w
    = (Ok [text_content ("Error: " ++ str_exn e ++ cookie_hint)], after w rq)
    /\ client rq = the_client w.
Proof.
  intros Ht Hc Hreq Hup. unfold call_tool. rewrite Hc.
  simpl in Ht.
  destruct Ht as [<-|[<-|[<-|[<-|[<-|[<-|[]]]]]]]; pick_branch.
  - rewrite bind_ret_world, get_my_profile_eq. cbv zeta. rewrite Hup.
    cbn [rbind fst snd]. eexists. split; reflexivity.
  - destruct (Hreq "profile_url") as (s & Hs); [simpl; tauto|].
    unfold getitem. rewrite Hs.
    rewrite bind_lift, bind_ret_world, get_profile_by_url_eq. cbv zeta. rewrite Hup.
    cbn [rbind fst snd]. eexists. split; reflexivity.
  - destruct (Hreq "query") as (s & Hs); [simpl; tauto|].
    unfold getitem. rewrite Hs.
    rewrite bind_lift, bind_ret_world, search_profiles_eq. cbv zeta. rewrite Hup.
    cbn [rbind fst snd]. eexists. split; reflexivity.
  - destruct (Hreq "keywords") as (s & Hs); [simpl; tauto|].
    unfold getitem. rewrite Hs.
    rewrite bind_lift, bind_ret_world, search_jobs_eq. cbv zeta. rewrite Hup.
    cbn [rbind fst snd]. eexists. split; reflexivity.
  - rewrite bind_ret_world, get_my_connections_eq. cbv zeta. rewrite Hup.
    cbn [rbind fst snd]. eexists. split; reflexivity.
  - rewrite bind_ret_world, get_feed_eq. cbv zeta. rewrite Hup.
    cbn [rbind fst snd]. eexists. split; reflexivity.
Qed.

Lemma upstream_failure_reported_witness :
  exists rq,
    call_tool (fun _ _ => Raise (UpstreamError "403 Forbidden"))
      (fun e => match e with UpstreamError m => m | _ => "" end)
      "get_my_profile" [] (init (Some "AQEDAT"))
    = (Ok [text_content ("Error: 403 Forbidden" ++ cookie_hint)],
       after (init (Some "AQEDAT")) rq)
    /\ client rq = the_client (init (Some "AQEDAT")).
Proof.
  apply (upstream_failure_reported (fun _ _ => Raise (UpstreamError "403 Forbidden"))
           (fun e => match e with UpstreamError m => m | _ => "" end)
           (nth 0 list_tools (Build_Tool "" "" VNone)) [] (init (Some "AQEDAT"))
           (UpstreamError "403 Forbidden")).
  - simpl; tauto.
  - reflexivity.
  - simpl; tauto.
  - reflexivity.
Defined.

(** X8: a [profile_url] argument that is not a string is not rejected
    before the client is made: the call creates the client if there is
    none, sends no request, and answers with the error message of the
    [AttributeError] that [split] raises. *)
Theorem profile_url_must_be_string upstream str_exn arguments profile_url w :
  cookie_unset (li_at_cookie w) = false ->
  lookup "profile_url" arguments = Some profile_url ->
  is_str profile_url = false ->
  call_tool upstream str_exn "get_profile_by_url" arguments w
  = (Ok [text_content ("Error: "
                         ++ str_exn (AttributeError (type_name profile_url) "split")
                         ++ cookie_hint)],
     opened w).
Proof.
  intros Hc Hp Hs. unfold call_tool. rewrite Hc. pick_branch.
  unfold getitem. rewrite Hp.
  rewrite bind_lift, bind_ret_world, get_profile_by_url_eq.
  destruct profile_url; try discriminate; reflexivity.
Qed.

Lemma profile_url_must_be_string_witness :
  call_tool (fun _ _ => Ok (VDict [])) (fun _ => "") "get_profile_by_url"
    [("profile_url", VInt 42)] (init (Some "AQEDAT"))
  = (Ok [text_content ("Error: " ++ cookie_hint)], opened (init (Some "AQEDAT"))).
Proof.
  apply (profile_url_must_be_string (fun _ _ => Ok (VDict [])) (fun _ => "")
           [("profile_url", VInt 42)] (VInt 42) (init (Some "AQEDAT")));
    reflexivity.
Defined.

(** X9: for every profile argument whose last path segment (up to a
    question mark) does not contain ["linkedin.com"], the whole argument,
    slashes and query string included, is what the lookup asks the upstream
    service for and what the [profile_url] of the record is built from; an
    argument whose last segment contains it is cut down to that segment. *)
Theorem whole_argument_is_username upstream s w :
  let rq u := {| client := the_client w; url := profile_view_url u; params := None |} in
  (str_contains "linkedin.com" (last_segment s) = false ->
     get_profile_by_url upstream (VStr s) w
     = (rbind (upstream (sent w) (rq s)) (parse_profile s), after w (rq s))
     /\ forall r, fst (get_profile_by_url upstream (VStr s) w) = Ok r ->
                  lookup "profile_url" r = Some (VStr (profile_link s)))
  /\ (str_contains "linkedin.com" (last_segment s) = true ->
      get_profile_by_url upstream (VStr s) w
      = (rbind (upstream (sent w) (rq (last_segment s))) (parse_profile (last_segment s)),
         after w (rq (last_segment s)))).
Proof.
  intros rq. rewrite get_profile_by_url_eq. cbv zeta.
  unfold extract_username. fold (last_segment s).
  split; intros H; rewrite H; cbn [negb]; [|reflexivity].
  split; [reflexivity|]. cbn [fst]. intros r Hr.
  apply rbind_ok in Hr as (data & _ & Hr).
  unfold parse_profile in Hr.
  repeat (apply rbind_ok in Hr; destruct Hr as (? & ? & Hr)).
  injection Hr as <-. reflexivity.
Qed.

Lemma whole_argument_is_username_witness :
  get_profile_by_url (fun _ _ => Ok (VDict [])) (VStr "linkedin.com/in/johndoe?trk=1")
    (init (Some "AQEDAT"))
  = (parse_profile "linkedin.com/in/johndoe?trk=1" (VDict []),
     after (init (Some "AQEDAT"))
       {| client := the_client (init (Some "AQEDAT"));
          url := profile_view_url "linkedin.com/in/johndoe?trk=1";
          params := None |}).
Proof.
  apply (whole_argument_is_username (fun _ _ => Ok (VDict []))
           "linkedin.com/in/johndoe?trk=1" (init (Some "AQEDAT"))).
  reflexivity.
Defined.

(** ** The records of a profile *)

Lemma with_date_inv field key tp experience experience' :
  with_date field key tp experience = Ok experience' ->
  experience'
  = match tp with
    | VDict t =>
        match lookup key t with
        | Some (VDict d) =>
            setitem field
              (VStr (str (dict_get d "month" (VStr "")) ++ "/"
                       ++ str (dict_get d "year" (VStr "")))) experience
        | _ => experience
        end
    | _ => experience
    end.
Proof.
  unfold with_date, contains, getitem.
  destruct tp as [| | | |s|l|t]; try discriminate; cbn [rbind].
  - destruct (str_contains key s); [discriminate|]. intros H. injection H as <-. reflexivity.
  - destruct (existsb _ l); [discriminate|]. intros H. injection H as <-. reflexivity.
  - destruct (lookup key t) as [d|]; cbn [rbind].
    + destruct d; try discriminate. intros H. injection H as <-. reflexivity.
    + intros H. injection H as <-. reflexivity.
Qed.

(** X10: an experience record has the title, company, description and
    location of the position, each empty when missing; it has a
    [start_date] exactly when the position has a [timePeriod] object with a
    [startDate] object, and then it reads month, a slash, year, each part
    empty when missing; [end_date] follows [endDate] in the same way,
    independently of the start.  The extractor returns on every position
    whose [timePeriod] and dates are objects or absent. *)
Theorem experience_dates pos :
  (position_shape pos = true -> is_ok (experience_entry pos) = true)
  /\ (forall x, experience_entry pos = Ok x ->
      exists e r,
        pos = VDict e /\ x = VDict r
        /\ lookup "title" r = Some (dict_get e "title" (VStr ""))
        /\ lookup "company" r = Some (dict_get e "companyName" (VStr ""))
        /\ lookup "description" r = Some (dict_get e "description" (VStr ""))
        /\ lookup "location" r = Some (dict_get e "locationName" (VStr ""))
        /\ lookup "start_date" r = date_text "startDate" e
        /\ lookup "end_date" r = date_text "endDate" e).
Proof.
  split.
  - intros H. destruct (experience_entry_total pos H) as (r & ->). reflexivity.
  - intros x H. destruct pos as [| | | | | |e]; try discriminate.
    exists e. unfold experience_entry, get, contains, getitem in H.
    unfold rbind at 1 2 3 4 5 in H. unfold date_text.
    destruct (lookup "timePeriod" e) as [tp|].
    + apply rbind_ok in H as (tp' & Htp & H). injection Htp as <-.
      apply rbind_ok in H as (x1 & H1 & H).
      apply rbind_ok in H as (x2 & H2 & H). injection H as <-.
      apply with_date_inv in H1. apply with_date_inv in H2. subst x2 x1.
      eexists. split; [reflexivity|]. split; [reflexivity|].
      destruct tp as [| | | | | |t]; try (repeat split; fail).
      destruct (lookup "startDate" t) as [[| | | | | |sd]|];
        destruct (lookup "endDate" t) as [[| | | | | |ed]|]; repeat split.
    + injection H as <-. eexists. repeat split.
Qed.

Lemma experience_dates_witness :
  is_ok (experience_entry
           (VDict [("title", VStr "Engineer");
                   ("timePeriod", VDict [("startDate", VDict [("year", VInt 2019)])])]))
  = true.
Proof.
  apply (experience_dates
           (VDict [("title", VStr "Engineer");
                   ("timePeriod", VDict [("startDate", VDict [("year", VInt 2019)])])])).
  reflexivity.
Defined.

Example experience_without_month :
  experience_entry
    (VDict [("title", VStr "Engineer");
            ("timePeriod", VDict [("startDate", VDict [("year", VInt 2019)])])])
  = Ok (VDict [("title", VStr "Engineer"); ("company", VStr "");
               ("description", VStr ""); ("location", VStr "");
               ("start_date", VStr "/2019")]).
Proof. reflexivity. Qed.





(** ** Own profile: [get_my_profile] *)

(** X12: when the identity record has no [publicIdentifier], or one that
    is empty or otherwise false, the own-profile lookup stops after its one
    request and returns the minimal record: name, headline, identifier and a
    profile URL built from the identifier. *)
Theorem own_profile_without_identifier upstream w me :
  let rq := {| client := the_client w; url := me_url; params := None |} in
  upstream (sent w) rq = Ok (VDict me) ->
  truthy (dict_get me "publicIdentifier" VNone) = false ->
  get_my_profile upstream w
  = (Ok [("name", full_name (dict_get me "firstName" (VStr ""))
                            (dict_get me "lastName" (VStr "")));
         ("headline", dict_get me "headline" (VStr ""));
         ("publicIdentifier", dict_get me "publicIdentifier" (VStr ""));
         ("profile_url",
          VStr (profile_link (str (dict_get me "publicIdentifier" (VStr "")))))],
     after w rq).
Proof.
  intros rq Hup Hid. rewrite get_my_profile_eq. cbv zeta. fold rq. rewrite Hup.
  cbn [rbind parse_me get]. rewrite Hid. reflexivity.
Qed.

Lemma own_profile_without_identifier_witness :
  get_my_profile (fun _ _ => Ok (VDict [("firstName", VStr "Ada")])) (init (Some "AQEDAT"))
  = (Ok [("name", VStr "Ada "); ("headline", VStr ""); ("publicIdentifier", VStr "");
         ("profile_url", VStr "https://www.linkedin.com/in/")],
     after (init (Some "AQEDAT"))
       {| client := the_client (init (Some "AQEDAT")); url := me_url; params := None |}).
Proof.
  apply (own_profile_without_identifier
           (fun _ _ => Ok (VDict [("firstName", VStr "Ada")])) (init (Some "AQEDAT"))
           [("firstName", VStr "Ada")]); reflexivity.
Defined.

Lemma parse_profile_keys username data r :
  parse_profile username data = Ok r ->
  exists name headline summary location industry url experience education skills,
    r = [("name", name); ("headline", headline); ("summary", summary);
         ("location", location); ("industry", industry); ("profile_url", url);
         ("experience", experience); ("education", education); ("skills", skills)].
Proof.
  intros H. unfold parse_profile in H.
  repeat (apply rbind_ok in H; destruct H as (? & _ & H)).
  injection H as <-. repeat eexists.
Qed.

(** X13: when the identity record has a non-empty string as
    [publicIdentifier], the own-profile lookup sends a second request, for
    the profile view of that identifier, through the same client, and lays
    the detailed record over the minimal one: the keys are those of the
    minimal record followed by the new ones, [publicIdentifier] keeps the
    identifier, and every other key has the value of the detailed record. *)
Theorem own_profile_merges_detail upstream w me ident data detailed :
  let rq1 := {| client := the_client w; url := me_url; params := None |} in
  let rq2 := {| client := the_client w;
                url := profile_view_url (extract_username ident);
                params := None |} in
  upstream (sent w) rq1 = Ok (VDict me) ->
  lookup "publicIdentifier" me = Some (VStr ident) ->
  ident <> "" ->
  upstream (sent w ++ [rq1])%list rq2 = Ok data ->
  parse_profile (extract_username ident) data = Ok detailed ->
  exists r,
    get_my_profile upstream w = (Ok r, after (after w rq1) rq2)
    /\ map fst r = ["name"; "headline"; "publicIdentifier"; "profile_url"; "summary";
                    "location"; "industry"; "experience"; "education"; "skills"]
    /\ lookup "publicIdentifier" r = Some (VStr ident)
    /\ forall k, k <> "publicIdentifier" -> lookup k r = lookup k detailed.
Proof.
  intros rq1 rq2 Hup1 Hid Hne Hup2 Hparse.
  assert (Hu : dict_get me "publicIdentifier" VNone = VStr ident)
    by (unfold dict_get; rewrite Hid; reflexivity).
  assert (Ht : truthy (VStr ident) = true)
    by (apply String.eqb_neq in Hne; cbn [truthy]; rewrite Hne; reflexivity).
  rewrite get_my_profile_eq. cbv zeta. fold rq1. rewrite Hup1.
  cbn [rbind parse_me get]. rewrite Hu, Ht.
  rewrite get_profile_by_url_eq. cbv zeta.
  change (the_client (after w rq1)) with (the_client w).
  change (sent (after w rq1)) with (sent w ++ [rq1])%list.
  fold rq2. rewrite Hup2. cbn [rbind]. rewrite Hparse.
  destruct (parse_profile_keys _ _ _ Hparse)
    as (n & h & s & l & i & u & ex & ed & sk & ->).
  assert (Hv : dict_get me "publicIdentifier" (VStr "") = VStr ident)
    by (unfold dict_get; rewrite Hid; reflexivity).
  eexists. split; [reflexivity|]. split; [reflexivity|].
  split; [rewrite Hv; reflexivity|].
  intros k Hk. apply String.eqb_neq in Hk.
  unfold update. cbn [fold_left fst snd setitem String.eqb Ascii.eqb Bool.eqb].
  simpl. rewrite Hk.
  repeat match goal with
         | |- context [String.eqb k ?key] =>
             destruct (String.eqb_spec k key); [subst k; reflexivity|]
         end.
  reflexivity.
Qed.

Lemma own_profile_merges_detail_witness :
  exists r,
    get_my_profile
      (fun _ rq => if String.eqb (url rq) me_url
                   then Ok (VDict [("publicIdentifier", VStr "ada")])
                   else Ok (VDict [("profile", VDict [("headline", VStr "Countess")])]))
      (init (Some "AQEDAT"))
    = (Ok r,
       after (after (init (Some "AQEDAT"))
                {| client := the_client (init (Some "AQEDAT")); url := me_url;
                   params := None |})
         {| client := the_client (init (Some "AQEDAT"));
            url := profile_view_url (extract_username "ada"); params := None |})
    /\ lookup "publicIdentifier" r = Some (VStr "ada").
Proof.
  destruct (own_profile_merges_detail
              (fun _ rq => if String.eqb (url rq) me_url
                           then Ok (VDict [("publicIdentifier", VStr "ada")])
                           else Ok (VDict [("profile", VDict [("headline", VStr "Countess")])]))
              (init (Some "AQEDAT")) [("publicIdentifier", VStr "ada")] "ada"
              (VDict [("profile", VDict [("headline", VStr "Countess")])])
              _ eq_refl eq_refl ltac:(discriminate) eq_refl eq_refl)
    as (r & H1 & _ & H3 & _).
  exists r. split; [exact H1|exact H3].
Defined.

Example own_profile_merged :
  fst (get_my_profile
         (fun _ rq => if String.eqb (url rq) me_url
                      then Ok (VDict [("firstName", VStr "Ada");
                                      ("headline", VStr "short");
                                      ("publicIdentifier", VStr "ada")])
                      else Ok (VDict [("profile", VDict [("headline", VStr "Countess")])]))
         (init (Some "AQEDAT")))
  = Ok [("name", VStr " "); ("headline", VStr "Countess");
        ("publicIdentifier", VStr "ada");
        ("profile_url", VStr "https://www.linkedin.com/in/ada");
        ("summary", VStr ""); ("location", VStr ""); ("industry", VStr "");
        ("experience", VList []); ("education", VList []); ("skills", VList [])].
Proof. reflexivity. Qed.

(** ** People search and connections *)


Example connection_with_numeric_identifier :
  parse_connections
    (VDict [("elements",
             VList [VDict [("connectedMember",
                            VDict [("firstName", VStr "Ada");
                                   ("publicIdentifier", VInt 7)])]])])
  = Ok [("count", VInt 1);
        ("connections",
         VList [VDict [("name", VStr "Ada "); ("headline", VStr "");
                       ("profile_url", VStr "https://www.linkedin.com/in/7")]])].
Proof. reflexivity. Qed.

(** ** Feed posts *)

Lemma feed_post_inv el p :
  feed_post el = Ok p ->
  exists t, p = VDict [("text", t); ("author", VStr ""); ("timestamp", VStr "")].
Proof.
  unfold feed_post. intros H. apply rbind_ok in H as (t & _ & H).
  injection H as <-. exists t. reflexivity.
Qed.

(** X15: whatever the document and the limit, what the feed normalizer
    returns is a count and a list of posts whose length is that count, and
    every post has exactly the keys text, author and timestamp, with author
    and timestamp empty. *)
Theorem feed_posts_have_no_author limit data r :
  parse_feed limit data = Ok r ->
  exists posts,
    r = [("count", VInt (Z.of_nat (List.length posts))); ("posts", VList posts)]
    /\ Forall (fun p => exists t,
                 p = VDict [("text", t); ("author", VStr ""); ("timestamp", VStr "")])
         posts.
Proof.
  intros H. unfold parse_feed in H.
  apply rbind_ok in H as (els & _ & H).
  apply rbind_ok in H as (shown & _ & H).
  apply rbind_ok in H as (items & _ & H).
  apply rbind_ok in H as (posts & Hposts & H). injection H as <-.
  exists posts. split; [reflexivity|].
  apply mapM_Forall2 in Hposts.
  induction Hposts as [|el p l ps Hp _ IH]; constructor; [|exact IH].
  apply (feed_post_inv el p Hp).
Qed.

Lemma feed_posts_have_no_author_witness :
  exists posts,
    [("count", VInt 1);
     ("posts", VList [VDict [("text", VStr "hello"); ("author", VStr "");
                             ("timestamp", VStr "")]])]
    = [("count", VInt (Z.of_nat (List.length posts))); ("posts", VList posts)].
Proof.
  destruct (feed_posts_have_no_author (VInt 5)
              (VDict [("elements",
                       VList [VDict [("value",
                                      VDict [(update_key,
                                              VDict [("commentary",
                                                      VDict [("text",
                                                              VDict [("text", VStr "hello")])]);
                                                     ("actor", VStr "Ada")])])]])])
              _ eq_refl) as (posts & H & _).
  exists posts. exact H.
Defined.



